(** * DataPoint request helper ([datapoint_access.py])

    A shallow embedding of the class [DPRequest]: the construction of
    DataPoint query URLs, the "common request" shorthands, and the
    build / send / parse life cycle of one request object.

    The program is Python 2 ([urllib2], [print] statements,
    [dict.iteritems]); strings are byte strings, which is what
    [String.string] is. *)

From Stdlib Require Import String Ascii List ZArith Bool Lia DecimalString.
Import ListNotations.
Open Scope string_scope.

(** ** Python values and exceptions *)

(** The values that reach the class through its arguments.  [PyInt] is the
    machine [int], [PyLong] the arbitrary precision [long] of Python 2; no
    arithmetic is done on either, so the range of [PyInt] plays no role.
    Floats and [unicode] objects are left out. *)
Inductive pyval : Type :=
| PyNone
| PyBool (b : bool)
| PyInt (n : Z)
| PyLong (n : Z)
| PyStr (s : string).

(** The exceptions the class raises or lets through. *)
Inductive exn : Type :=
| ValueError (msg : string)
| AttributeError (msg : string)
| TypeError (msg : string)
| KeyError (key : string)
| IndexError (msg : string)
| HTTPError (code : Z) (reason : string)
| URLError (reason : string).

(** The two [ValueError]s [common_requests] is written to raise: the one
    for a five-day request on all sites, naming the forecast or observation
    variant, and the one for an unknown request type, listing the valid
    names. *)
Definition InvalidLocation (wx : string) : exn :=
  ValueError ("Location ID cannot equal 'all' for a five-day " ++ wx ++ " request").

Definition InvalidRequestType (names : string) : exn :=
  ValueError ("Request type supplied does not match to the following valid options:"
                ++ String "010" ("  " ++ names)).

(** [str(n)] for an integer. *)
Definition str_of_Z (n : Z) : string := NilZero.string_of_int (Z.to_int n).

(** What a [{}] field of [str.format] renders a value as ([format(v, '')],
    which is [str(v)] for these types). *)
Definition py_str (v : pyval) : string :=
  match v with
  | PyNone => "None"
  | PyBool true => "True"
  | PyBool false => "False"
  | PyInt n => str_of_Z n
  | PyLong n => str_of_Z n
  | PyStr s => s
  end.

(** [isinstance(v, int)]: [bool] is a subclass of [int], [long] is not. *)
Definition isinstance_int (v : pyval) : bool :=
  match v with
  | PyBool _ | PyInt _ => true
  | _ => false
  end.

(** [v is None] *)
Definition is_None (v : pyval) : bool :=
  match v with
  | PyNone => true
  | _ => false
  end.

(** [a == b]: numbers (booleans included) compare by value, strings by
    content, and values of unrelated types are unequal. *)
Definition py_eq (a b : pyval) : bool :=
  match a, b with
  | PyNone, PyNone => true
  | PyStr s, PyStr t => String.eqb s t
  | PyBool x, PyBool y => Bool.eqb x y
  | PyBool x, (PyInt n | PyLong n) | (PyInt n | PyLong n), PyBool x =>
      Z.eqb (if x then 1 else 0) n
  | (PyInt m | PyLong m), (PyInt n | PyLong n) => Z.eqb m n
  | _, _ => false
  end.

(** [v in l] for a list of [str] *)
Definition py_in (v : pyval) (l : list string) : bool :=
  existsb (fun k => py_eq v (PyStr k)) l.

(** ** The error monad of pure code *)

Definition result (A : Type) : Type := (exn + A)%type.

Definition rmap {A B : Type} (f : A -> B) (r : result A) : result B :=
  match r with
  | inl e => inl e
  | inr a => inr (f a)
  end.

(** ** [str.format], [str.split], tuple unpacking, dictionary lookup *)

(** [t.format( *args )] for the templates of this program: literal text,
    the escapes [{{] and [}}], and auto-numbered [{}] fields.  Surplus
    arguments are ignored, a missing one is an [IndexError].  Numbered,
    named or converted fields do not occur in the program and are not
    modelled (they are answered with a [ValueError]). *)
Fixpoint format (t : string) (args : list pyval) {struct t} : result string :=
  match t with
  | EmptyString => inr EmptyString
  | String c t' =>
      if Ascii.eqb c "{" then
        match t' with
        | EmptyString => inl (ValueError "Single '{' encountered in format string")
        | String d t'' =>
            if Ascii.eqb d "}" then
              match args with
              | [] => inl (IndexError "tuple index out of range")
              | a :: args' => rmap (append (py_str a)) (format t'' args')
              end
            else if Ascii.eqb d "{" then rmap (String "{") (format t'' args)
            else inl (ValueError "replacement field not modelled")
        end
      else if Ascii.eqb c "}" then
        match t' with
        | EmptyString => inl (ValueError "Single '}' encountered in format string")
        | String d t'' =>
            if Ascii.eqb d "}" then rmap (String "}") (format t'' args)
            else inl (ValueError "Single '}' encountered in format string")
        end
      else rmap (String c) (format t' args)
  end.

(** [s.split(sep)] for a one-character separator: the pieces between the
    separators, always at least one piece. *)
Fixpoint split (sep : ascii) (s : string) : list string :=
  match s with
  | EmptyString => [EmptyString]
  | String c s' =>
      if Ascii.eqb c sep then EmptyString :: split sep s'
      else match split sep s' with
           | [] => [String c EmptyString]
           | p :: ps => String c p :: ps
           end
  end.

(** [a, b = l] *)
Definition unpack2 (l : list string) : result (string * string) :=
  match l with
  | [a; b] => inr (a, b)
  | [] => inl (ValueError "need more than 0 values to unpack")
  | [_] => inl (ValueError "need more than 1 value to unpack")
  | _ => inl (ValueError "too many values to unpack")
  end.

(** [d[k]] for a dictionary with [str] keys *)
Fixpoint getitem {A : Type} (d : list (string * A)) (k : string) : result A :=
  match d with
  | [] => inl (KeyError k)
  | (k', v) :: d' => if String.eqb k' k then inr v else getitem d' k
  end.

(** ** Class attributes *)

Definition data_types : list string := ["val"; "txt"].
Definition unsupported_data_types : list string := ["image"; "layer"].
Definition wx_types : list string := ["wxfcs"; "wxobs"].

Definition request_types : list (string * string) :=
  [ ("fcs_sites", "val/wxfcs/all/{}/sitelist");
    ("fcs_capabilities", "val/wxfcs/all/{}/capabilities");
    ("fcs_fiveday", "val/wxfcs/all/{}/{}");
    ("obs_sites", "val/wxobs/all/{}/sitelist");
    ("obs_capabilities", "val/wxobs/all/{}/capabilities");
    ("obs_fiveday", "val/wxobs/all/{}/{}") ].

(** ** The URL grammar of the service, as the specification words it *)

(** One [name=value&] segment per extra option; an integer [res] gets the
    terminator [hourly&]. *)
Definition option_segment (kw : string) (val : pyval) : string :=
  kw ++ "=" ++ py_str val
     ++ (if String.eqb kw "res" && isinstance_int val then "hourly&" else "&").

Fixpoint query_fragment (items : list (string * pyval)) : string :=
  match items with
  | [] => ""
  | (kw, val) :: items' => option_segment kw val ++ query_fragment items'
  end.

(** The URL of the service for a resource, a query fragment and a key. *)
Definition url_for (resource query key : string) : string :=
  "http://datapoint.metoffice.gov.uk/public/data/"
    ++ resource ++ "?" ++ query ++ "key=" ++ key.

(** ** External collaborators *)

(** The parts of the world the class calls into: the connection opened by
    [urllib2.urlopen] and read by [resp.read()], the standard output written
    by [print], and the decoder [json.loads].  The first two change the
    world; a failed call returns the exception it raises. *)
Class Externals : Type := {
  World : Type;
  Connection : Type;
  Data : Type;
  urlopen : string -> World -> result Connection * World;
  read : Connection -> World -> result string * World;
  print_line : string -> World -> World;
  json_loads : string -> result Data
}.

Section Class_DPRequest.

Context {E : Externals}.

(** ** The object *)

(** The instance attributes assigned by [__init__]; no method adds another. *)
Record DPRequest : Type := mkDPRequest {
  data_type : pyval;
  wx_type : pyval;
  api_key : pyval;
  time_period : pyval;
  site_id : pyval;
  kwargs : list (string * pyval);
  base_url : string;
  data_container : string;
  request_str : option string;
  http_code : option Z;
  response : option string;
  data : option Data
}.

(** [self.request_str = v], [self.response = v], [self.data = v] *)
Definition set_request_str (v : option string) (self : DPRequest) : DPRequest :=
  mkDPRequest (data_type self) (wx_type self) (api_key self) (time_period self)
    (site_id self) (kwargs self) (base_url self) (data_container self)
    v (http_code self) (response self) (data self).

Definition set_response (v : option string) (self : DPRequest) : DPRequest :=
  mkDPRequest (data_type self) (wx_type self) (api_key self) (time_period self)
    (site_id self) (kwargs self) (base_url self) (data_container self)
    (request_str self) (http_code self) v (data self).

Definition set_data (v : option Data) (self : DPRequest) : DPRequest :=
  mkDPRequest (data_type self) (wx_type self) (api_key self) (time_period self)
    (site_id self) (kwargs self) (base_url self) (data_container self)
    (request_str self) (http_code self) (response self) v.

(** The three derived fields, the request state of the specification:
    built URL, raw response, parsed data. *)
Definition request_state (self : DPRequest) : option string * option string * option Data :=
  (request_str self, response self, data self).

(** ** Methods as state transformers that may raise *)

(** A method runs on the object and the world, and ends with a value or an
    exception; whatever it assigned before raising stays assigned. *)
Definition M (A : Type) : Type :=
  DPRequest * World -> result A * (DPRequest * World).

Definition ret {A : Type} (a : A) : M A := fun s => (inr a, s).

Definition raise {A : Type} (e : exn) : M A := fun s => (inl e, s).

Definition bind {A B : Type} (m : M A) (k : A -> M B) : M B :=
  fun s => match m s with
           | (inl e, s') => (inl e, s')
           | (inr a, s') => k a s'
           end.

Definition lift {A : Type} (r : result A) : M A := fun s => (r, s).

Definition get_self : M DPRequest := fun s => (inr (fst s), s).

Definition assign (f : DPRequest -> DPRequest) : M unit :=
  fun s => (inr tt, (f (fst s), snd s)).

Definition extern {A : Type} (f : World -> result A * World) : M A :=
  fun s => let (r, w) := f (snd s) in (r, (fst s, w)).

Definition print (line : string) : M unit :=
  fun s => (inr tt, (fst s, print_line line (snd s))).

Notation "x <- m ;; k" := (bind m (fun x => k))
  (at level 61, m at next level, right associativity).
Notation "m ;; k" := (bind m (fun _ => k))
  (at level 61, right associativity).

(** ** [__init__] *)

(** [request_type] is accepted and ignored; [time_period] and [site_id]
    default to ['all'] at the call site; [kw] are the keyword arguments
    collected by [**kwargs], in the order [iteritems] yields them. *)
Definition __init__ (data_type wx_type api_key request_type time_period site_id : pyval)
    (kw : list (string * pyval)) : DPRequest :=
  {| data_type := data_type;
     wx_type := wx_type;
     api_key := api_key;
     time_period := time_period;
     site_id := site_id;
     kwargs := kw;
     base_url := "http://datapoint.metoffice.gov.uk/public/data/{}?{}key={}";
     data_container := "json";
     request_str := None;
     http_code := None;
     response := None;
     data := None |}.

(** ** [_request] *)

Definition _request : M unit :=
  self <- get_self ;;
  match request_str self with
  | Some url =>
      resp <- extern (urlopen url) ;;
      body <- extern (read resp) ;;
      assign (set_response (Some body))
  | None => raise (ValueError "Request string has not been set.")
  end.

(** ** [query_string] *)

Definition query_string : M string :=
  self <- get_self ;;
  match request_str self with
  | None => ret (base_url self)
  | Some url => ret url
  end.

(** ** [build_request] *)

(** The loop over [self.kwargs.iteritems()], with [query] as accumulator. *)
Fixpoint build_query (items : list (string * pyval)) (query : string) : result string :=
  match items with
  | [] => inr query
  | (kw, val) :: items' =>
      let query_end :=
        if String.eqb kw "res" && isinstance_int val then "hourly&" else "&" in
      match format "{}{}{}{}" [PyStr kw; PyStr "="; val; PyStr query_end] with
      | inl e => inl e
      | inr segment => build_query items' (query ++ segment)
      end
  end.

(** The resource string built when no override is given. *)
Definition resource_path (self : DPRequest) : result string :=
  format "{}/{}/{}/{}/{}"
    [data_type self; wx_type self; time_period self;
     PyStr (data_container self); site_id self].

Definition build_request (resource : pyval) : M unit :=
  self <- get_self ;;
  resource <- (if is_None resource then
                 r <- lift (resource_path self) ;; ret (PyStr r)
               else ret resource) ;;
  query <- lift (build_query (kwargs self) "") ;;
  url <- lift (format (base_url self) [resource; PyStr query; api_key self]) ;;
  assign (set_request_str (Some url)) ;;
  print url ;;
  print "Requesting data, please wait..." ;;
  _request.

(** ** [common_requests] *)

(** [self.locn_id]: the class reads this attribute but nothing in the
    program ever assigns it ([__init__] stores the site under [site_id]),
    so the read raises. *)
Definition locn_id : M pyval :=
  raise (AttributeError "'DPRequest' object has no attribute 'locn_id'").

(** [c_keys()], a call of the list [c_keys]. *)
Definition call_list {A : Type} (l : list string) : M A :=
  raise (TypeError "'list' object is not callable").

Definition common_requests (request_type : pyval) : M unit :=
  self <- get_self ;;
  let c_keys := map fst request_types in
  resource <-
    (if py_in request_type c_keys then
       parts <- lift (unpack2 (split "_" (py_str request_type))) ;;
       let (wx, common_type) := (parts : string * string) in
       all_sites <- (if String.eqb common_type "fiveday" then
                       locn <- locn_id ;; ret (py_eq locn (PyStr "all"))
                     else ret false) ;;
       if all_sites : bool then
         msg <- lift (format "Location ID cannot equal 'all' for a five-day {} request"
                        [PyStr wx]) ;;
         raise (ValueError msg)
       else if String.eqb common_type "fiveday" then
         template <- lift (getitem request_types (py_str request_type)) ;;
         locn <- locn_id ;;
         lift (format template [PyStr (data_container self); locn])
       else
         template <- lift (getitem request_types (py_str request_type)) ;;
         lift (format template [PyStr (data_container self)])
     else
       keys <- call_list c_keys ;;
       msg <- lift (format ("Request type supplied does not match to the "
                              ++ "following valid options:" ++ String "010" "  {}")
                      [PyStr keys]) ;;
       raise (ValueError msg)) ;;
  build_request (PyStr resource).

(** ** [parse_response] *)

Definition parse_response : M Data :=
  self <- get_self ;;
  (match response self with
   | None =>
       match request_str self with
       | Some _ => _request
       | None => raise (ValueError "Request string has not been defined.")
       end
   | Some _ => ret tt
   end) ;;
  self <- get_self ;;
  match response self with
  | Some body =>
      d <- lift (json_loads body) ;;
      assign (set_data (Some d)) ;;
      ret d
  | None => raise (TypeError "expected string or buffer")
  end.

(** ** The caller's view: sequences of calls on one object *)

(** The configuration attributes a caller may reassign between calls. *)
Inductive attr : Type :=
| A_data_type | A_wx_type | A_api_key | A_time_period | A_site_id.

(** [self.<a> = v] *)
Definition setattr (a : attr) (v : pyval) (self : DPRequest) : DPRequest :=
  mkDPRequest
    (match a with A_data_type => v | _ => data_type self end)
    (match a with A_wx_type => v | _ => wx_type self end)
    (match a with A_api_key => v | _ => api_key self end)
    (match a with A_time_period => v | _ => time_period self end)
    (match a with A_site_id => v | _ => site_id self end)
    (kwargs self) (base_url self) (data_container self)
    (request_str self) (http_code self) (response self) (data self).

Inductive call : Type :=
| Call_request
| Call_query_string
| Call_common_requests (request_type : pyval)
| Call_build_request (resource : pyval)
| Call_parse_response
| Call_setattr (a : attr) (v : pyval).

(** The object and the world after a call, whether it returned or raised. *)
Definition after (c : call) (s : DPRequest * World) : DPRequest * World :=
  match c with
  | Call_request => snd (_request s)
  | Call_query_string => snd (query_string s)
  | Call_common_requests rt => snd (common_requests rt s)
  | Call_build_request r => snd (build_request r s)
  | Call_parse_response => snd (parse_response s)
  | Call_setattr a v => (setattr a v (fst s), snd s)
  end.

(** The states a caller can bring an object into: construct it, then call
    methods and reassign configuration attributes in any order. *)
Inductive reachable : DPRequest * World -> Prop :=
| reach_init : forall dt wx key rt tp sid kw w,
    reachable (__init__ dt wx key rt tp sid kw, w)
| reach_call : forall c s, reachable s -> reachable (after c s).

(** What holds of every reachable object: the two constants of [__init__]
    are intact, a response is only present once a URL is, and parsed data
    only once a response is. *)
Definition consistent (self : DPRequest) : Prop :=
  base_url self = "http://datapoint.metoffice.gov.uk/public/data/{}?{}key={}"
  /\ data_container self = "json"
  /\ (request_str self = None -> response self = None)
  /\ (response self = None -> data self = None).

(** The slash-joined resource of an object, and the URL a build step is
    to produce for it: the override if one is given, else that resource. *)
Definition resource_of (self : DPRequest) : string :=
  py_str (data_type self) ++ "/" ++ py_str (wx_type self) ++ "/"
    ++ py_str (time_period self) ++ "/" ++ data_container self ++ "/"
    ++ py_str (site_id self).

Definition built_url (resource : pyval) (self : DPRequest) : string :=
  url_for (if is_None resource then resource_of self else py_str resource)
    (query_fragment (kwargs self)) (py_str (api_key self)).

(** One transport round trip for [url]: open, read, store the body. *)
Definition send (url : string) (self : DPRequest) (w : World)
  : result unit * (DPRequest * World) :=
  match urlopen url w with
  | (inl e, w1) => (inl e, (self, w1))
  | (inr conn, w1) =>
      match read conn w1 with
      | (inl e, w2) => (inl e, (self, w2))
      | (inr body, w2) => (inr tt, (set_response (Some body) self, w2))
      end
  end.

(** The outcome [r] of a run, with [f] applied to the object it ends in. *)
Definition on_object {A : Type} (f : DPRequest -> DPRequest)
    (r : result A * (DPRequest * World)) : result A * (DPRequest * World) :=
  (fst r, (f (fst (snd r)), snd (snd r))).

(** A failing run of [m] leaves the request state as it was. *)
Definition failure_atomic {A : Type} (m : M A) : Prop :=
  forall s e s', m s = (inl e, s') -> request_state (fst s') = request_state (fst s).

End Class_DPRequest.

(** ** A transport stub *)

(** A world that holds the replies the service will give, in order, and
    records the URLs opened and the lines printed. *)
Record Wire : Type := mkWire {
  pending : list (result string);
  requested : list string;
  printed : list string
}.

(** Collaborators for examples: each [urlopen] consumes the next pending
    reply (a body, or the exception raised), [loads] decodes; decoded data
    are strings here. *)
Definition stub (loads : string -> result string) : Externals :=
  {| World := Wire;
     Connection := string;
     Data := string;
     urlopen := fun url w =>
       match pending w with
       | [] => (inl (URLError "no reply"), mkWire [] (requested w ++ [url]) (printed w))
       | r :: rs => (r, mkWire rs (requested w ++ [url]) (printed w))
       end;
     read := fun body w => (inr body, w);
     print_line := fun line w =>
       mkWire (pending w) (requested w) (printed w ++ [line]);
     json_loads := loads |}.

Definition not_found : result string := inl (HTTPError 404 "Not Found").

Definition no_json : string -> result string :=
  fun _ => inl (ValueError "No JSON object could be decoded").

Definition wire (replies : list (result string)) : Wire := mkWire replies [] [].

(** The object of [example.py], with a key in place of the one typed in. *)
Definition example_request {E : Externals} : DPRequest :=
  __init__ (PyStr "val") (PyStr "wxobs") (PyStr "KEY") PyNone (PyStr "all")
    (PyInt 3772) [("res", PyStr "hourly")].

(** The same object with the site given as a string. *)
Definition site_request {E : Externals} : DPRequest :=
  __init__ (PyStr "val") (PyStr "wxobs") (PyStr "KEY") PyNone (PyStr "all")
    (PyStr "3772") [("res", PyStr "hourly")].

(** The example object after a build that the service answered with 404,
    in a world where the next answer is 404 again. *)
Definition refused_request : @DPRequest (stub inr) * Wire :=
  snd (@build_request (stub inr) PyNone (example_request, wire [not_found; not_found])).

(** The example object after a build that the service answered with a
    body, in a world where the next answer is 404. *)
Definition served_request : @DPRequest (stub inr) * Wire :=
  snd (@build_request (stub inr) PyNone (example_request, wire [inr "old"; not_found])).

(** An object with the default site ['all'] and no extra options. *)
Definition all_sites_request {E : Externals} : DPRequest :=
  __init__ (PyStr "val") (PyStr "wxfcs") (PyStr "KEY") PyNone (PyStr "all")
    (PyStr "all") [].

(** ** Callers and observers *)

Section Callers.

Context {E : Externals}.

(** Everything of an object that is not request state: the arguments of
    [__init__] and the three attributes it sets to constants. *)
Definition config (self : DPRequest)
  : pyval * pyval * pyval * pyval * pyval * list (string * pyval)
    * string * string * option Z :=
  (data_type self, wx_type self, api_key self, time_period self, site_id self,
   kwargs self, base_url self, data_container self, http_code self).

(** The attribute a caller reads back, by name. *)
Definition getattr (a : attr) (self : DPRequest) : pyval :=
  match a with
  | A_data_type => data_type self
  | A_wx_type => wx_type self
  | A_api_key => api_key self
  | A_time_period => time_period self
  | A_site_id => site_id self
  end.

(** An object after a URL, a body and parsed data have, or have not, been
    stored in it: [None] leaves the attribute as it is. *)
Definition stored (url body : option string) (parsed : option Data)
    (self : DPRequest) : DPRequest :=
  mkDPRequest (data_type self) (wx_type self) (api_key self) (time_period self)
    (site_id self) (kwargs self) (base_url self) (data_container self)
    (match url with Some _ => url | None => request_str self end)
    (http_code self)
    (match body with Some _ => body | None => response self end)
    (match parsed with Some _ => parsed | None => data self end).

(** The method calls among the calls. *)
Definition is_method (c : call) : bool :=
  match c with
  | Call_setattr _ _ => false
  | _ => true
  end.

(** The exception a call ends with, if it raises. *)
Definition raised (c : call) (s : DPRequest * World) : option exn :=
  let outcome {A : Type} (r : result A * (DPRequest * World)) :=
    match fst r with
    | inl e => Some e
    | inr _ => None
    end in
  match c with
  | Call_request => outcome (_request s)
  | Call_query_string => outcome (query_string s)
  | Call_common_requests rt => outcome (common_requests rt s)
  | Call_build_request r => outcome (build_request r s)
  | Call_parse_response => outcome (parse_response s)
  | Call_setattr _ _ => None
  end.

(** Lines 5 to 7 of [example.py], for the key typed in at the prompt:
    construct the request, build it, parse the response.  (The prompt and
    the prints that follow are not part of this.) *)
Definition example_url1 (api_key : string) : DPRequest :=
  __init__ (PyStr "val") (PyStr "wxobs") (PyStr api_key) PyNone (PyStr "all")
    (PyInt 3772) [("res", PyStr "hourly")].

Definition example_main (api_key : string) (w : World)
  : result Data * (DPRequest * World) :=
  bind (build_request PyNone) (fun _ => parse_response) (example_url1 api_key, w).

End Callers.

(** ** The decoded response, as [example.py] walks it *)

(** What [json.loads] returns: [None], booleans, [int] or [long], floats
    (kept as the text of their literal, nothing here looks into them),
    [unicode] strings (one character per [ascii]), lists, and dictionaries
    with string keys, in the order iteration yields them. *)
#[warnings="-register-all"]
Inductive json : Type :=
| JNull
| JBool (b : bool)
| JInt (n : Z)
| JLong (n : Z)
| JFloat (literal : string)
| JStr (s : string)
| JList (items : list json)
| JDict (members : list (string * json)).

Definition type_name (v : json) : string :=
  match v with
  | JNull => "NoneType"
  | JBool _ => "bool"
  | JInt _ => "int"
  | JLong _ => "long"
  | JFloat _ => "float"
  | JStr _ => "unicode"
  | JList _ => "list"
  | JDict _ => "dict"
  end.

(** [v[key]] for a [str] key *)
Definition subscript (v : json) (key : string) : result json :=
  match v with
  | JDict members => getitem members key
  | JList _ => inl (TypeError "list indices must be integers, not str")
  | JStr _ => inl (TypeError "string indices must be integers")
  | _ => inl (TypeError ("'" ++ type_name v ++ "' object has no attribute '__getitem__'"))
  end.

(** The values a [for] loop over [v] binds, in order: the items of a list,
    the keys of a dictionary, the characters of a string. *)
Definition iter (v : json) : result (list json) :=
  match v with
  | JList items => inr items
  | JDict members => inr (map (fun m => JStr (fst m)) members)
  | JStr s => inr (map (fun c => JStr (String c EmptyString)) (list_ascii_of_string s))
  | _ => inl (TypeError ("'" ++ type_name v ++ "' object is not iterable"))
  end.

Definition rbind {A B : Type} (r : result A) (k : A -> result B) : result B :=
  match r with
  | inl e => inl e
  | inr a => k a
  end.

(** The inner loop: [for itm in itms: pressure.append(itm['P'])] *)
Fixpoint append_pressures (itms : list json) (pressure : list json)
  : result (list json) :=
  match itms with
  | [] => inr pressure
  | itm :: itms' =>
      rbind (subscript itm "P") (fun p => append_pressures itms' (pressure ++ [p]))
  end.

(** The outer loop: [for number in numbers: itms = number['Rep']; ...] *)
Fixpoint walk_periods (numbers : list json) (pressure : list json)
  : result (list json) :=
  match numbers with
  | [] => inr pressure
  | number :: numbers' =>
      rbind (subscript number "Rep") (fun itms =>
      rbind (iter itms) (fun itms =>
      rbind (append_pressures itms pressure) (fun pressure =>
      walk_periods numbers' pressure)))
  end.

(** Lines 13 to 18 of [example.py]: the list [pressure] when the loops are
    done, or the exception that stops the script. *)
Definition retrieve_pressure (data1 : json) : result (list json) :=
  rbind (subscript data1 "SiteRep") (fun v =>
  rbind (subscript v "DV") (fun v =>
  rbind (subscript v "Location") (fun v =>
  rbind (subscript v "Period") (fun numbers =>
  rbind (iter numbers) (fun numbers =>
  walk_periods numbers []))))).

(** The report of the specification's worked example. *)
Definition one_reading : json :=
  JDict [("SiteRep", JDict [("DV", JDict [("Location",
    JDict [("Period", JList [JDict [("Rep", JList [JDict [("P", JStr "1023")]])]])])])])].

(** A report for a single day, which the service sends with [Period] as
    an object instead of a list of objects. *)
Definition single_day : json :=
  JDict [("SiteRep", JDict [("DV", JDict [("Location",
    JDict [("Period", JDict [("type", JStr "Day");
                             ("Rep", JList [JDict [("P", JStr "1023")]])])])])])].

(** * Properties *)

(** ** Strings *)

Lemma append_empty_r (s : string) : s ++ "" = s.
Proof. induction s as [|c s IH]; simpl; [reflexivity | now rewrite IH]. Qed.

Lemma append_assoc (s t u : string) : (s ++ t) ++ u = s ++ t ++ u.
Proof. induction s as [|c s IH]; simpl; [reflexivity | now rewrite IH]. Qed.

Lemma append_length (s t : string) :
  String.length (s ++ t) = String.length s + String.length t.
Proof. induction s as [|c s IH]; simpl; [reflexivity | now rewrite IH]. Qed.

Lemma append_cancel_l (p s t : string) : p ++ s = p ++ t -> s = t.
Proof.
  induction p as [|c p IH]; simpl; intros H; [exact H|].
  injection H as H. now apply IH.
Qed.

Lemma append_cancel_r (s t u : string) : s ++ u = t ++ u -> s = t.
Proof.
  revert t. induction s as [|c s IH]; intros [|d t] H; simpl in H.
  - reflexivity.
  - apply (f_equal String.length) in H. simpl in H.
    rewrite append_length in H. lia.
  - apply (f_equal String.length) in H. simpl in H.
    rewrite append_length in H. lia.
  - injection H as Hc H. subst d. f_equal. now apply IH.
Qed.

(** ** The pure helpers *)

Example format_fiveday :
  format "val/wxfcs/all/{}/{}" [PyStr "json"; PyInt 3840]
  = inr "val/wxfcs/all/json/3840".
Proof. reflexivity. Qed.

Example format_missing_argument :
  format "val/wxfcs/all/{}/{}" [PyStr "json"] = inl (IndexError "tuple index out of range").
Proof. reflexivity. Qed.

Example split_fiveday : split "_" "fcs_fiveday" = ["fcs"; "fiveday"].
Proof. reflexivity. Qed.

Example str_of_Z_examples :
  str_of_Z 0 = "0" /\ str_of_Z 3772 = "3772" /\ str_of_Z (-12) = "-12".
Proof. repeat split. Qed.

Lemma format_four (a b c d : pyval) :
  format "{}{}{}{}" [a; b; c; d]
  = inr (py_str a ++ py_str b ++ py_str c ++ py_str d).
Proof. simpl. now rewrite append_empty_r. Qed.

Lemma build_query_fragment (items : list (string * pyval)) (query : string) :
  build_query items query = inr (query ++ query_fragment items).
Proof.
  revert query. induction items as [|[kw val] items IH]; intros query.
  - simpl. now rewrite append_empty_r.
  - cbn [build_query query_fragment]. rewrite format_four, IH.
    unfold option_segment. cbn [py_str]. now rewrite !append_assoc.
Qed.

Lemma query_fragment_app (pre post : list (string * pyval)) :
  query_fragment (pre ++ post) = query_fragment pre ++ query_fragment post.
Proof.
  induction pre as [|[kw val] pre IH]; simpl; [reflexivity|].
  now rewrite IH, append_assoc.
Qed.

Lemma py_in_request_types (v : pyval) :
  py_in v (map fst request_types) = true ->
  exists name, v = PyStr name /\ In name (map fst request_types).
Proof.
  unfold py_in. rewrite existsb_exists. intros (k & Hk & Heq).
  destruct v; simpl in Heq; try discriminate.
  apply String.eqb_eq in Heq. subst k. eauto.
Qed.

Section Methods.

Context {E : Externals}.

Lemma resource_path_eq (self : DPRequest) :
  resource_path self = inr (resource_of self).
Proof.
  unfold resource_path, resource_of. simpl. now rewrite append_empty_r.
Qed.

Lemma format_base_url (resource query key : pyval) :
  format "http://datapoint.metoffice.gov.uk/public/data/{}?{}key={}"
    [resource; query; key]
  = inr (url_for (py_str resource) (py_str query) (py_str key)).
Proof. unfold url_for. simpl. now rewrite append_empty_r. Qed.

(** *** What each method does, case by case *)

Lemma _request_eq (self : DPRequest) (w : World) :
  _request (self, w)
  = match request_str self with
    | Some url => send url self w
    | None => (inl (ValueError "Request string has not been set."), (self, w))
    end.
Proof.
  unfold _request, bind, get_self, extern, assign, raise, send. cbn.
  destruct (request_str self) as [url|]; [|reflexivity]. cbn.
  destruct (urlopen url w) as [[e|conn] w1]; cbn; [reflexivity|].
  destruct (read conn w1) as [[e|body] w2]; reflexivity.
Qed.

Lemma build_request_eq (resource : pyval) (self : DPRequest) (w : World) :
  base_url self = "http://datapoint.metoffice.gov.uk/public/data/{}?{}key={}" ->
  build_request resource (self, w)
  = let url := built_url resource self in
    send url (set_request_str (Some url) self)
      (print_line "Requesting data, please wait..." (print_line url w)).
Proof.
  intros Hbase.
  unfold build_request, built_url, bind, get_self, lift, ret, assign, print.
  cbn [fst snd].
  rewrite resource_path_eq, build_query_fragment, Hbase. cbn [append].
  destruct (is_None resource) eqn:Hnone.
  - rewrite format_base_url. cbn [fst snd py_str].
    rewrite _request_eq. reflexivity.
  - rewrite format_base_url. cbn [fst snd py_str].
    rewrite _request_eq. reflexivity.
Qed.

Lemma common_requests_listing (name kind wx : string) (self : DPRequest) (w : World) :
  In (name, (wx, kind))
     [("fcs_sites", ("wxfcs", "sitelist")); ("fcs_capabilities", ("wxfcs", "capabilities"));
      ("obs_sites", ("wxobs", "sitelist")); ("obs_capabilities", ("wxobs", "capabilities"))] ->
  common_requests (PyStr name) (self, w)
  = build_request
      (PyStr ("val/" ++ wx ++ "/all/" ++ data_container self ++ "/" ++ kind)) (self, w).
Proof.
  intros Hin. simpl in Hin.
  destruct Hin as [H|[H|[H|[H|[]]]]]; injection H as <- <- <-;
    unfold common_requests, bind, get_self, lift, ret;
    cbn -[build_request]; reflexivity.
Qed.

Lemma common_requests_fiveday (name : string) (self : DPRequest) (w : World) :
  name = "fcs_fiveday" \/ name = "obs_fiveday" ->
  common_requests (PyStr name) (self, w)
  = (inl (AttributeError "'DPRequest' object has no attribute 'locn_id'"), (self, w)).
Proof.
  intros [->| ->]; reflexivity.
Qed.

Lemma common_requests_unknown (request_type : pyval) (self : DPRequest) (w : World) :
  py_in request_type (map fst request_types) = false ->
  common_requests request_type (self, w)
  = (inl (TypeError "'list' object is not callable"), (self, w)).
Proof.
  intros Hin. unfold common_requests, bind, get_self. cbn [fst snd].
  rewrite Hin. reflexivity.
Qed.

(** A common request either raises before touching the object, or is a
    build with the resolved resource. *)
Lemma common_requests_cases (request_type : pyval) (self : DPRequest) (w : World) :
  (exists e, common_requests request_type (self, w) = (inl e, (self, w)))
  \/ (exists resource,
        is_None resource = false
        /\ common_requests request_type (self, w) = build_request resource (self, w)).
Proof.
  destruct (py_in request_type (map fst request_types)) eqn:Hin.
  - apply py_in_request_types in Hin. destruct Hin as (name & -> & Hin).
    simpl in Hin.
    destruct Hin as [<-|[<-|[<-|[<-|[<-|[<-|[]]]]]]].
    + right. eexists. split; [|apply (common_requests_listing "fcs_sites" "sitelist" "wxfcs"); simpl; auto]. reflexivity.
    + right. eexists. split; [|apply (common_requests_listing "fcs_capabilities" "capabilities" "wxfcs"); simpl; auto]. reflexivity.
    + left. eexists. apply common_requests_fiveday. auto.
    + right. eexists. split; [|apply (common_requests_listing "obs_sites" "sitelist" "wxobs"); simpl; auto]. reflexivity.
    + right. eexists. split; [|apply (common_requests_listing "obs_capabilities" "capabilities" "wxobs"); simpl; auto 6]. reflexivity.
    + left. eexists. apply common_requests_fiveday. auto.
  - left. eexists. now apply common_requests_unknown.
Qed.

Lemma parse_response_not_built (self : DPRequest) (w : World) :
  response self = None -> request_str self = None ->
  parse_response (self, w)
  = (inl (ValueError "Request string has not been defined."), (self, w)).
Proof.
  intros Hresp Hurl. unfold parse_response, bind, get_self, raise. cbn [fst snd].
  now rewrite Hresp, Hurl.
Qed.

Lemma parse_response_cached (self : DPRequest) (w : World) (body : string) :
  response self = Some body ->
  parse_response (self, w)
  = match json_loads body with
    | inl e => (inl e, (self, w))
    | inr d => (inr d, (set_data (Some d) self, w))
    end.
Proof.
  intros Hresp. unfold parse_response, bind, get_self, ret, lift, assign.
  cbn [fst snd]. rewrite Hresp. cbn [fst snd]. rewrite Hresp.
  destruct (json_loads body); reflexivity.
Qed.

Lemma parse_response_fetch (self : DPRequest) (w : World) (url : string) :
  response self = None -> request_str self = Some url ->
  parse_response (self, w)
  = match send url self w with
    | (inl e, s') => (inl e, s')
    | (inr _, (self', w')) =>
        match response self' with
        | Some body =>
            match json_loads body with
            | inl e => (inl e, (self', w'))
            | inr d => (inr d, (set_data (Some d) self', w'))
            end
        | None => (inl (TypeError "expected string or buffer"), (self', w'))
        end
    end.
Proof.
  intros Hresp Hurl. unfold parse_response.
  unfold bind at 1. unfold get_self at 1. cbn [fst snd].
  unfold bind at 1. rewrite Hresp, Hurl, _request_eq, Hurl.
  destruct (send url self w) as [[e|[]] [self' w']]; [reflexivity|].
  unfold bind, get_self, ret, lift, assign, raise. cbn [fst snd].
  destruct (response self') as [body|]; [|reflexivity].
  destruct (json_loads body); reflexivity.
Qed.

(** The outcomes of one round trip. *)
Lemma send_cases (url : string) (self : DPRequest) (w : World) :
  (exists e w', send url self w = (inl e, (self, w')))
  \/ (exists body w', send url self w = (inr tt, (set_response (Some body) self, w'))).
Proof.
  unfold send. destruct (urlopen url w) as [[e|conn] w1]; [left; eauto|].
  destruct (read conn w1) as [[e|body] w2]; [left|right]; eauto.
Qed.

(** *** The invariant of reachable objects *)

Lemma consistent_init (dt wx key rt tp sid : pyval) (kw : list (string * pyval)) :
  consistent (__init__ dt wx key rt tp sid kw).
Proof. repeat split. Qed.

Lemma consistent_set_request_str (url : string) (self : DPRequest) :
  consistent self -> consistent (set_request_str (Some url) self).
Proof.
  intros (Hb & Hc & Hu & Hr). repeat split; auto. intros; discriminate.
Qed.

Lemma consistent_setattr (a : attr) (v : pyval) (self : DPRequest) :
  consistent self -> consistent (setattr a v self).
Proof. intros (Hb & Hc & Hu & Hr). repeat split; auto. Qed.

Lemma consistent_send (url : string) (self : DPRequest) (w : World) :
  consistent self -> request_str self <> None ->
  consistent (fst (snd (send url self w))).
Proof.
  intros Hcons Hurl.
  destruct (send_cases url self w) as [(e & w' & ->)|(body & w' & ->)]; [exact Hcons|].
  destruct Hcons as (Hb & Hc & Hu & Hr).
  repeat split; auto; cbn; intros; [contradiction | discriminate].
Qed.

Lemma consistent_build_request (resource : pyval) (self : DPRequest) (w : World) :
  consistent self -> consistent (fst (snd (build_request resource (self, w)))).
Proof.
  intros Hcons. rewrite build_request_eq by apply Hcons. cbv zeta.
  apply consistent_send; [now apply consistent_set_request_str | discriminate].
Qed.

Lemma consistent_after (c : call) (s : DPRequest * World) :
  consistent (fst s) -> consistent (fst (after c s)).
Proof.
  destruct s as [self w]. cbn [fst]. intros Hcons.
  destruct c as [| |rt|resource| |a v]; cbn [after fst snd].
  - rewrite _request_eq. destruct (request_str self) as [url|] eqn:Hurl; [|exact Hcons].
    apply consistent_send; [exact Hcons | congruence].
  - unfold query_string, bind, get_self, ret. cbn [fst snd].
    destruct (request_str self); exact Hcons.
  - destruct (common_requests_cases rt self w) as [(e & ->)|(resource & _ & ->)];
      [exact Hcons | now apply consistent_build_request].
  - now apply consistent_build_request.
  - destruct (response self) as [body|] eqn:Hresp.
    + rewrite (parse_response_cached _ _ body Hresp).
      destruct (json_loads body); [exact Hcons|].
      destruct Hcons as (Hb & Hc & Hu & Hr).
      repeat split; auto. cbn. congruence.
    + destruct (request_str self) as [url|] eqn:Hurl.
      * rewrite (parse_response_fetch _ _ url Hresp Hurl).
        assert (Hsent : consistent (fst (snd (send url self w))))
          by (apply consistent_send; [exact Hcons | congruence]).
        destruct (send_cases url self w) as [(e & w' & Hs)|(body & w' & Hs)];
          rewrite Hs in *; [exact Hsent|].
        cbn [response set_response]. cbn [fst snd] in Hsent.
        destruct (json_loads body); [exact Hsent|].
        destruct Hsent as (Hb & Hc & Hu & Hr).
        repeat split; auto. cbn. discriminate.
      * rewrite parse_response_not_built by assumption. exact Hcons.
  - now apply consistent_setattr.
Qed.

Lemma reachable_consistent (s : DPRequest * World) :
  reachable s -> consistent (fst s).
Proof.
  induction 1 as [dt wx key rt tp sid kw w|c s _ IH].
  - apply consistent_init.
  - now apply consistent_after.
Qed.

(** *** What a build stores, and what it keeps *)

Lemma build_request_object (resource : pyval) (self : DPRequest) (w : World) :
  consistent self ->
  let built := set_request_str (Some (built_url resource self)) self in
  fst (snd (build_request resource (self, w))) = built
  \/ exists body, fst (snd (build_request resource (self, w)))
                  = set_response (Some body) built.
Proof.
  intros Hcons built. rewrite build_request_eq by apply Hcons. cbv zeta.
  match goal with |- context [send ?u ?o ?v] =>
    destruct (send_cases u o v) as [(e & w' & ->)|(body & w' & ->)] end;
    [left | right; exists body]; reflexivity.
Qed.

Lemma build_request_stores_url (resource : pyval) (self : DPRequest) (w : World) :
  consistent self ->
  request_str (fst (snd (build_request resource (self, w))))
  = Some (built_url resource self).
Proof.
  intros Hcons.
  destruct (build_request_object resource self w Hcons) as [->|(body & ->)];
    reflexivity.
Qed.

Lemma url_for_resource_inj (r1 r2 query key : string) :
  url_for r1 query key = url_for r2 query key -> r1 = r2.
Proof.
  unfold url_for. intros H. apply append_cancel_l in H.
  exact (append_cancel_r _ _ _ H).
Qed.

Lemma built_url_site_differs (self : DPRequest) (old new : string) :
  site_id self = PyStr old -> old <> new ->
  built_url PyNone (setattr A_site_id (PyStr new) self) <> built_url PyNone self.
Proof.
  intros Hold Hneq Heq. apply Hneq.
  unfold built_url in Heq. cbn [is_None kwargs api_key setattr] in Heq.
  apply url_for_resource_inj in Heq. unfold resource_of in Heq.
  cbn [data_type wx_type time_period data_container site_id setattr] in Heq.
  rewrite Hold in Heq. cbn [py_str] in Heq.
  repeat apply append_cancel_l in Heq. now symmetry.
Qed.

(** *** Methods that do not read the data type or the weather type *)

Lemma send_setattr (a : attr) (v : pyval) (url : string) (self : DPRequest) (w : World) :
  send url (setattr a v self) w = on_object (setattr a v) (send url self w).
Proof.
  unfold send, on_object.
  destruct (urlopen url w) as [[e|conn] w1]; [reflexivity|].
  destruct (read conn w1) as [[e|body] w2]; reflexivity.
Qed.

Lemma _request_setattr (a : attr) (v : pyval) (self : DPRequest) (w : World) :
  _request (setattr a v self, w) = on_object (setattr a v) (_request (self, w)).
Proof.
  rewrite !_request_eq. cbn [request_str setattr].
  destruct (request_str self) as [url|]; [apply send_setattr | reflexivity].
Qed.

Lemma parse_response_setattr (a : attr) (v : pyval) (self : DPRequest) (w : World) :
  parse_response (setattr a v self, w)
  = on_object (setattr a v) (parse_response (self, w)).
Proof.
  destruct (response self) as [body|] eqn:Hresp.
  - rewrite (parse_response_cached (setattr a v self) w body) by exact Hresp.
    rewrite (parse_response_cached self w body) by exact Hresp.
    destruct (json_loads body); reflexivity.
  - destruct (request_str self) as [url|] eqn:Hurl.
    + rewrite (parse_response_fetch (setattr a v self) w url) by assumption.
      rewrite (parse_response_fetch self w url) by assumption.
      rewrite send_setattr.
      destruct (send_cases url self w) as [(e & w' & ->)|(body & w' & ->)];
        [reflexivity|].
      cbn. destruct (json_loads body); reflexivity.
    + rewrite !parse_response_not_built by assumption. reflexivity.
Qed.

Lemma build_request_override_setattr
    (a : attr) (v resource : pyval) (self : DPRequest) (w : World) :
  a = A_data_type \/ a = A_wx_type ->
  is_None resource = false ->
  build_request resource (setattr a v self, w)
  = on_object (setattr a v) (build_request resource (self, w)).
Proof.
  intros Ha Hnone.
  unfold build_request, bind, get_self, lift, ret, assign, print.
  cbn [fst snd]. rewrite Hnone. cbn [kwargs base_url api_key setattr].
  rewrite build_query_fragment.
  replace (match a with A_api_key => v | _ => api_key self end) with (api_key self)
    by (destruct Ha as [->| ->]; reflexivity).
  destruct (format (base_url self) _) as [e|url]; [reflexivity|].
  cbn [fst snd]. rewrite !_request_eq. cbn [request_str set_request_str setattr].
  apply (send_setattr a v url (set_request_str (Some url) self)).
Qed.

Lemma common_requests_setattr
    (a : attr) (v request_type : pyval) (self : DPRequest) (w : World) :
  a = A_data_type \/ a = A_wx_type ->
  common_requests request_type (setattr a v self, w)
  = on_object (setattr a v) (common_requests request_type (self, w)).
Proof.
  intros Ha.
  destruct (py_in request_type (map fst request_types)) eqn:Hin.
  - apply py_in_request_types in Hin. destruct Hin as (name & -> & Hin).
    simpl in Hin.
    destruct Hin as [<-|[<-|[<-|[<-|[<-|[<-|[]]]]]]].
    + rewrite !(common_requests_listing "fcs_sites" "sitelist" "wxfcs") by (simpl; auto).
      now apply build_request_override_setattr.
    + rewrite !(common_requests_listing "fcs_capabilities" "capabilities" "wxfcs")
        by (simpl; auto).
      now apply build_request_override_setattr.
    + rewrite !common_requests_fiveday by auto. reflexivity.
    + rewrite !(common_requests_listing "obs_sites" "sitelist" "wxobs") by (simpl; auto).
      now apply build_request_override_setattr.
    + rewrite !(common_requests_listing "obs_capabilities" "capabilities" "wxobs")
        by (simpl; auto 6).
      now apply build_request_override_setattr.
    + rewrite !common_requests_fiveday by auto. reflexivity.
  - rewrite !common_requests_unknown by exact Hin. reflexivity.
Qed.

End Methods.

(** * The claims *)

Section Claims.

Context {E : Externals}.

(** C1.  The specification promises an [InvalidLocation] error when a
    five-day shorthand is resolved on an object whose site id is ['all'].
    The code reads the site from [self.locn_id], an attribute that does not
    exist, so what is raised is an [AttributeError] (the site id plays no
    part in it); the object and the world are left as they were, and no
    URL is built. *)
Theorem fiveday_all_sites_attribute_error
    (self : DPRequest) (w : World) (name : string) :
  site_id self = PyStr "all" ->
  name = "fcs_fiveday" \/ name = "obs_fiveday" ->
  common_requests (PyStr name) (self, w)
  = (inl (AttributeError "'DPRequest' object has no attribute 'locn_id'"), (self, w))
  /\ forall wx, fst (common_requests (PyStr name) (self, w)) <> inl (InvalidLocation wx).
Proof.
  intros _ Hname. rewrite common_requests_fiveday by exact Hname.
  split; [reflexivity|]. intros wx. cbn. discriminate.
Qed.

(** C2.  The specification promises an [InvalidRequestType] error listing
    the valid names when the shorthand is not one of the six.  The code
    builds that message with [c_keys()], a call of a list, so what is
    raised is a [TypeError]; the object and the world are left as they
    were, and no URL is built. *)
Theorem unknown_shorthand_type_error
    (self : DPRequest) (w : World) (request_type : pyval) :
  py_in request_type (map fst request_types) = false ->
  common_requests request_type (self, w)
  = (inl (TypeError "'list' object is not callable"), (self, w))
  /\ forall names,
      fst (common_requests request_type (self, w)) <> inl (InvalidRequestType names).
Proof.
  intros Hin. rewrite common_requests_unknown by exact Hin.
  split; [reflexivity|]. intros names. cbn. discriminate.
Qed.

(** C3, as amended.  A failing send leaves the request state as it was.
    A failing build leaves the raw response and the parsed data as they
    were, but the built URL already holds the newly built URL.  A failing
    parse leaves the built URL and the parsed data as they were, and the
    raw response too unless the parse itself fetched a body whose decoding
    then failed, in which case the raw response holds that body.  A failing
    common request either fails before building, leaving the state as it
    was, or fails as a build does. *)
Theorem failure_and_request_state :
  failure_atomic _request
  /\ (forall resource self w e s',
        reachable (self, w) ->
        build_request resource (self, w) = (inl e, s') ->
        request_state (fst s')
        = (Some (built_url resource self), response self, data self))
  /\ (forall self w e s',
        parse_response (self, w) = (inl e, s') ->
        request_str (fst s') = request_str self
        /\ data (fst s') = data self
        /\ (response (fst s') = response self
            \/ (response self = None
                /\ exists body, response (fst s') = Some body /\ json_loads body = inl e)))
  /\ (forall request_type self w e s',
        reachable (self, w) ->
        common_requests request_type (self, w) = (inl e, s') ->
        request_state (fst s') = request_state self
        \/ exists resource,
             request_state (fst s')
             = (Some (built_url resource self), response self, data self)).
Proof.
  assert (Hbuild : forall resource self w e s',
             reachable (self, w) ->
             build_request resource (self, w) = (inl e, s') ->
             request_state (fst s')
             = (Some (built_url resource self), response self, data self)).
  { intros resource self w e s' Hreach Hrun.
    apply reachable_consistent in Hreach. cbn [fst] in Hreach.
    rewrite build_request_eq in Hrun by apply Hreach. cbv zeta in Hrun.
    match type of Hrun with send ?u ?o ?v = _ =>
      destruct (send_cases u o v) as [(e' & w' & Hs)|(body & w' & Hs)] end;
      rewrite Hs in Hrun; [|discriminate].
    injection Hrun as _ <-. reflexivity. }
  split; [|split; [exact Hbuild|split]].
  - intros [self w] e s' Hrun. rewrite _request_eq in Hrun.
    destruct (request_str self) as [url|].
    + destruct (send_cases url self w) as [(e' & w' & Hs)|(body & w' & Hs)];
        rewrite Hs in Hrun; [|discriminate].
      injection Hrun as _ <-. reflexivity.
    + injection Hrun as _ <-. reflexivity.
  - intros self w e s' Hrun.
    destruct (response self) as [body|] eqn:Hresp.
    + rewrite (parse_response_cached _ _ body Hresp) in Hrun.
      destruct (json_loads body); [|discriminate].
      injection Hrun as _ <-. cbn [fst]. rewrite Hresp. auto.
    + destruct (request_str self) as [url|] eqn:Hurl.
      * rewrite (parse_response_fetch _ _ url Hresp Hurl) in Hrun.
        destruct (send_cases url self w) as [(e' & w' & Hs)|(body & w' & Hs)];
          rewrite Hs in Hrun.
        -- injection Hrun as _ <-. cbn [fst]. rewrite Hresp, Hurl. auto.
        -- cbn [response set_response] in Hrun.
           destruct (json_loads body) as [e'|d] eqn:Hjson; [|discriminate].
           injection Hrun as <- <-. cbn. repeat split; auto.
           right. split; [reflexivity|]. eauto.
      * rewrite parse_response_not_built in Hrun by assumption.
        injection Hrun as _ <-. cbn [fst]. rewrite Hresp, Hurl. auto.
  - intros rt self w e s' Hreach Hrun.
    destruct (common_requests_cases rt self w) as [(e' & Hc)|(resource & _ & Hc)];
      rewrite Hc in Hrun.
    + injection Hrun as _ <-. now left.
    + right. exists resource. now apply (Hbuild resource self w e s').
Qed.

(** C4.  On every reachable object whose data type, weather type, time
    period and site id are strings, the resource built without an override
    is the five segments joined by slashes with [json] in fourth place; the
    construction cannot fail, the URL is stored whatever the transport then
    does, and a build only raises what the transport raised. *)
Theorem resource_is_slash_joined
    (self : DPRequest) (w : World) (dt wx tp sid : string) :
  reachable (self, w) ->
  data_type self = PyStr dt -> wx_type self = PyStr wx ->
  time_period self = PyStr tp -> site_id self = PyStr sid ->
  let resource := dt ++ "/" ++ wx ++ "/" ++ tp ++ "/json/" ++ sid in
  let url := url_for resource (query_fragment (kwargs self)) (py_str (api_key self)) in
  resource_path self = inr resource
  /\ build_request PyNone (self, w)
     = send url (set_request_str (Some url) self)
         (print_line "Requesting data, please wait..." (print_line url w))
  /\ request_str (fst (snd (build_request PyNone (self, w)))) = Some url.
Proof.
  intros Hreach Hdt Hwx Htp Hsid resource url.
  apply reachable_consistent in Hreach. destruct Hreach as (Hb & Hc & _).
  cbn [fst] in Hb, Hc.
  assert (Hres : resource_of self = resource).
  { unfold resource_of, resource. rewrite Hdt, Hwx, Htp, Hsid, Hc. reflexivity. }
  assert (Hurl : built_url PyNone self = url).
  { unfold built_url, url. cbn [is_None]. now rewrite Hres. }
  split; [now rewrite resource_path_eq, Hres|].
  rewrite build_request_eq by exact Hb. cbv zeta. rewrite Hurl.
  split; [reflexivity|].
  match goal with |- context [send ?u ?o ?v] =>
    destruct (send_cases u o v) as [(e & w' & ->)|(body & w' & ->)] end;
    reflexivity.
Qed.

(** C5.  In the query fragment assembled from the extra options, the
    option [res] with a value that is an [int] yields the segment
    [res=<n>hourly&]; with any other value it yields [res=<value>&]; and an
    option of any other name yields [name=<value>&] whatever the type of
    its value.  The segment stands between the fragments of the options
    before and after it. *)
Theorem res_option_terminator (pre post : list (string * pyval)) :
  exists qpre qpost,
    build_query pre "" = inr qpre
    /\ build_query post "" = inr qpost
    /\ (forall n,
          build_query (pre ++ ("res", PyInt n) :: post) ""
          = inr (qpre ++ "res=" ++ str_of_Z n ++ "hourly&" ++ qpost))
    /\ (forall v, isinstance_int v = true ->
          build_query (pre ++ ("res", v) :: post) ""
          = inr (qpre ++ "res=" ++ py_str v ++ "hourly&" ++ qpost))
    /\ (forall v, isinstance_int v = false ->
          build_query (pre ++ ("res", v) :: post) ""
          = inr (qpre ++ "res=" ++ py_str v ++ "&" ++ qpost))
    /\ (forall kw v, kw <> "res" ->
          build_query (pre ++ (kw, v) :: post) ""
          = inr (qpre ++ kw ++ "=" ++ py_str v ++ "&" ++ qpost)).
Proof.
  exists (query_fragment pre), (query_fragment post).
  rewrite !build_query_fragment. cbn [append].
  assert (Hseg : forall kw v,
             build_query (pre ++ (kw, v) :: post) ""
             = inr (query_fragment pre ++ option_segment kw v ++ query_fragment post)).
  { intros kw v. rewrite build_query_fragment, query_fragment_app. reflexivity. }
  repeat split.
  - intros n. rewrite Hseg. unfold option_segment. cbn.
    now rewrite !append_assoc.
  - intros v Hint. rewrite Hseg. unfold option_segment. rewrite Hint. cbn.
    now rewrite !append_assoc.
  - intros v Hint. rewrite Hseg. unfold option_segment. rewrite Hint. cbn.
    now rewrite !append_assoc.
  - intros kw v Hkw. rewrite Hseg. unfold option_segment.
    apply String.eqb_neq in Hkw. rewrite Hkw. cbn [andb].
    now rewrite !append_assoc.
Qed.

(** C6.  On every reachable object without extra options, the query
    fragment is empty and the URL a build stores is the service prefix,
    the resource, and [?key=<api_key>] with nothing in between. *)
Theorem empty_options_url (self : DPRequest) (w : World) (resource : pyval) :
  reachable (self, w) ->
  kwargs self = [] ->
  build_query (kwargs self) "" = inr ""
  /\ request_str (fst (snd (build_request resource (self, w))))
     = Some ("http://datapoint.metoffice.gov.uk/public/data/"
               ++ (if is_None resource then resource_of self else py_str resource)
               ++ "?key=" ++ py_str (api_key self)).
Proof.
  intros Hreach Hkw.
  apply reachable_consistent in Hreach. destruct Hreach as (Hb & _).
  cbn [fst] in Hb. rewrite Hkw. split; [reflexivity|].
  rewrite build_request_eq by exact Hb. cbv zeta.
  unfold built_url, url_for. rewrite Hkw. cbn [query_fragment append].
  match goal with |- context [send ?u ?o ?v] =>
    destruct (send_cases u o v) as [(e & w' & ->)|(body & w' & ->)] end;
    reflexivity.
Qed.

(** C7.  On every reachable object on which no URL has been built,
    [parse_response] raises the [ValueError] for a request that is not
    built and changes nothing; the raw response and the parsed data of
    such an object are absent, and so remain absent. *)
Theorem parse_before_build (s : DPRequest * World) :
  reachable s ->
  request_str (fst s) = None ->
  parse_response s = (inl (ValueError "Request string has not been defined."), s)
  /\ response (fst s) = None
  /\ data (fst s) = None.
Proof.
  intros Hreach Hurl. destruct s as [self w]. cbn [fst] in *.
  destruct (reachable_consistent _ Hreach) as (_ & _ & Hu & Hr). cbn [fst] in Hu, Hr.
  assert (Hresp : response self = None) by auto.
  split; [now apply parse_response_not_built | auto].
Qed.

(** C8.  When the service answers the built URL with an error status, the
    send raises that [HTTPError], status and reason untouched; so does a
    parse that had to send.  The object is exactly as before, so a raw
    response and parsed data that were absent stay absent, and the world
    is the one left by that single attempt to open the URL. *)
Theorem transport_error_propagates
    (self : DPRequest) (w w1 : World) (url : string) (code : Z) (reason : string) :
  request_str self = Some url ->
  urlopen url w = (inl (HTTPError code reason), w1) ->
  _request (self, w) = (inl (HTTPError code reason), (self, w1))
  /\ (response self = None ->
      parse_response (self, w) = (inl (HTTPError code reason), (self, w1)))
  /\ (response self = None -> data self = None ->
      forall s', (s' = snd (_request (self, w)) \/ s' = snd (parse_response (self, w))) ->
      response (fst s') = None /\ data (fst s') = None).
Proof.
  intros Hurl Hopen.
  assert (Hsend : send url self w = (inl (HTTPError code reason), (self, w1)))
    by (unfold send; now rewrite Hopen).
  assert (Hreq : _request (self, w) = (inl (HTTPError code reason), (self, w1)))
    by (now rewrite _request_eq, Hurl).
  assert (Hparse : response self = None ->
                   parse_response (self, w) = (inl (HTTPError code reason), (self, w1))).
  { intros Hresp. now rewrite (parse_response_fetch _ _ url Hresp Hurl), Hsend. }
  repeat split; auto.
  - destruct H1 as [->| ->]; [rewrite Hreq | rewrite Hparse by assumption]; assumption.
  - destruct H1 as [->| ->]; [rewrite Hreq | rewrite Hparse by assumption]; assumption.
Qed.

(** C9.  A build without override stores the URL computed from the
    current configuration.  Building again on the resulting object, in
    whatever world, stores the same URL.  After the site id (a string) is
    changed to a different string, building stores a different URL, and a
    send on that object opens this new URL. *)
Theorem rebuild_recomputes_url (self : DPRequest) (w : World) :
  reachable (self, w) ->
  let s1 := snd (build_request PyNone (self, w)) in
  request_str (fst s1) = Some (built_url PyNone self)
  /\ (forall w', request_str (fst (snd (build_request PyNone (fst s1, w'))))
                 = request_str (fst s1))
  /\ (forall old new w',
        site_id self = PyStr old -> old <> new ->
        let s2 := snd (build_request PyNone (setattr A_site_id (PyStr new) (fst s1), w')) in
        let url2 := built_url PyNone (setattr A_site_id (PyStr new) self) in
        request_str (fst s2) = Some url2
        /\ request_str (fst s2) <> request_str (fst s1)
        /\ forall w'', _request (fst s2, w'') = send url2 (fst s2) w'').
Proof.
  intros Hreach s1.
  assert (Hcons : consistent self) by apply (reachable_consistent _ Hreach).
  assert (Hcons1 : consistent (fst s1)) by now apply consistent_build_request.
  assert (Hurl1 : request_str (fst s1) = Some (built_url PyNone self))
    by now apply build_request_stores_url.
  assert (Hkeep : forall a v,
             built_url PyNone (setattr a v (fst s1)) = built_url PyNone (setattr a v self)).
  { intros a v. subst s1.
    destruct (build_request_object PyNone self w Hcons) as [->|(body & ->)];
      reflexivity. }
  assert (Hsame : built_url PyNone (fst s1) = built_url PyNone self).
  { subst s1.
    destruct (build_request_object PyNone self w Hcons) as [->|(body & ->)];
      reflexivity. }
  split; [exact Hurl1|split].
  - intros w'. rewrite build_request_stores_url by exact Hcons1.
    now rewrite Hurl1, Hsame.
  - intros old new w' Hold Hneq s2 url2.
    assert (Hurl2 : request_str (fst s2) = Some url2).
    { subst s2 url2. rewrite build_request_stores_url
        by now apply consistent_setattr.
      now rewrite Hkeep. }
    split; [exact Hurl2|split].
    + rewrite Hurl2, Hurl1. intros Heq.
      apply (built_url_site_differs self old new Hold Hneq).
      exact (f_equal (fun o => match o with Some u => u | None => url2 end) Heq).
    + intros w''. now rewrite _request_eq, Hurl2.
Qed.

(** C10.  Neither construction nor building looks at the lists of
    recognised or unsupported data types: for all strings given as data
    type and weather type ([image] and [layer] included), the object is
    constructed with them, a build stores a URL that begins with them,
    and a build raises only what the transport raised.  The other methods
    do not read the two attributes at all: their outcome is the same
    whatever values these hold. *)
Theorem types_are_not_validated
    (dt wx : string) (key rt tp sid : pyval) (kw : list (string * pyval)) (w : World) :
  let self := __init__ (PyStr dt) (PyStr wx) key rt tp sid kw in
  (data_type self = PyStr dt /\ wx_type self = PyStr wx)
  /\ (exists rest,
        request_str (fst (snd (build_request PyNone (self, w))))
        = Some ("http://datapoint.metoffice.gov.uk/public/data/"
                  ++ dt ++ "/" ++ wx ++ "/" ++ rest))
  /\ (forall e s',
        build_request PyNone (self, w) = (inl e, s') ->
        exists w0 w1,
          (exists url, urlopen url w0 = (inl e, w1))
          \/ (exists conn, read conn w0 = (inl e, w1)))
  /\ (forall a v self' w',
        a = A_data_type \/ a = A_wx_type ->
        _request (setattr a v self', w') = on_object (setattr a v) (_request (self', w'))
        /\ parse_response (setattr a v self', w')
           = on_object (setattr a v) (parse_response (self', w'))
        /\ forall request_type,
            common_requests request_type (setattr a v self', w')
            = on_object (setattr a v) (common_requests request_type (self', w'))).
Proof.
  intros self.
  assert (Hcons : consistent self) by apply consistent_init.
  split; [split; reflexivity|split; [|split]].
  - rewrite build_request_stores_url by exact Hcons.
    unfold built_url, url_for, resource_of. cbn [is_None self __init__ data_type
      wx_type time_period data_container site_id kwargs api_key py_str].
    eexists. rewrite !append_assoc. cbn [append]. reflexivity.
  - intros e s' Hrun. rewrite build_request_eq in Hrun by reflexivity.
    cbv zeta in Hrun. unfold send in Hrun.
    match type of Hrun with context [urlopen ?u ?v] =>
      destruct (urlopen u v) as [[e'|conn] w1] eqn:Hopen end.
    + injection Hrun as <- _. eauto 6.
    + destruct (read conn w1) as [[e'|body] w2] eqn:Hread; [|discriminate].
      injection Hrun as <- _. eauto 6.
  - intros a v self' w' Ha. split; [apply _request_setattr|].
    split; [apply parse_response_setattr|].
    intros request_type. now apply common_requests_setattr.
Qed.

End Claims.

(** ** Instances on the transport stub *)

Ltac freshly_built :=
  unfold example_request, site_request, all_sites_request;
  exact (reach_init _ _ _ _ _ _ _ _).

(** The run of [example.py] against a service that answers with a body. *)
Example example_py_build :
  let r := @build_request (stub inr) PyNone (example_request, wire [inr "{}"]) in
  fst r = inr tt
  /\ request_state (fst (snd r))
     = (Some "http://datapoint.metoffice.gov.uk/public/data/val/wxobs/all/json/3772?res=hourly&key=KEY",
        Some "{}", None)
  /\ printed (snd (snd r))
     = ["http://datapoint.metoffice.gov.uk/public/data/val/wxobs/all/json/3772?res=hourly&key=KEY";
        "Requesting data, please wait..."].
Proof. repeat split. Qed.

(** The four shorthands that are not five-day requests do resolve. *)
Example sitelist_resolves :
  request_str (fst (snd (@common_requests (stub inr) (PyStr "obs_sites")
                           (all_sites_request, wire [inr "{}"]))))
  = Some "http://datapoint.metoffice.gov.uk/public/data/val/wxobs/all/json/sitelist?key=KEY".
Proof. reflexivity. Qed.

(** A five-day shorthand raises the [AttributeError] for a concrete site
    as well. *)
Example fiveday_concrete_site :
  fst (@common_requests (stub inr) (PyStr "obs_fiveday") (example_request, wire [inr "{}"]))
  = inl (AttributeError "'DPRequest' object has no attribute 'locn_id'").
Proof. reflexivity. Qed.

Lemma fiveday_all_sites_attribute_error_witness :
  site_id (@all_sites_request (stub inr)) = PyStr "all"
  /\ @common_requests (stub inr) (PyStr "fcs_fiveday") (all_sites_request, wire [])
     = (inl (AttributeError "'DPRequest' object has no attribute 'locn_id'"),
        (all_sites_request, wire [])).
Proof.
  split; [reflexivity|].
  apply (@fiveday_all_sites_attribute_error (stub inr)); [reflexivity | now left].
Defined.

Lemma unknown_shorthand_type_error_witness :
  py_in (PyStr "forecast_sitelist") (map fst request_types) = false
  /\ @common_requests (stub inr) (PyStr "forecast_sitelist") (all_sites_request, wire [])
     = (inl (TypeError "'list' object is not callable"), (all_sites_request, wire [])).
Proof.
  split; [reflexivity|].
  apply (@unknown_shorthand_type_error (stub inr)). reflexivity.
Defined.

(** C3, as the specification states it, fails: a build that the service
    answers with 404 raises, and the built URL, absent before, is set. *)
Lemma failed_build_changes_built_url :
  let s := (@example_request (stub no_json), wire [not_found]) in
  fst (build_request PyNone s) = inl (HTTPError 404 "Not Found")
  /\ request_state (fst s) = (None, None, None)
  /\ request_state (fst (snd (build_request PyNone s)))
     = (Some "http://datapoint.metoffice.gov.uk/public/data/val/wxobs/all/json/3772?res=hourly&key=KEY",
        None, None)
  /\ ~ @failure_atomic (stub no_json) unit (build_request PyNone).
Proof.
  cbv zeta. repeat split.
  intros H.
  specialize (H (example_request, wire [not_found]) _ _ eq_refl).
  vm_compute in H. discriminate H.
Qed.

(** A parse that fetches a body and then fails to decode it raises too,
    and the raw response, absent before, holds the body. *)
Example failed_parse_keeps_fetched_body :
  let s := snd (@build_request (stub no_json) PyNone (example_request, wire [not_found; inr "oops"])) in
  response (fst s) = None
  /\ fst (parse_response s) = inl (ValueError "No JSON object could be decoded")
  /\ response (fst (snd (parse_response s))) = Some "oops"
  /\ ~ @failure_atomic (stub no_json) _ parse_response.
Proof.
  cbv zeta. repeat split.
  intros H.
  specialize (H (snd (@build_request (stub no_json) PyNone
                        (example_request, wire [not_found; inr "oops"]))) _ _ eq_refl).
  vm_compute in H. discriminate H.
Qed.

Lemma failure_and_request_state_witness :
  let s := (@example_request (stub no_json), wire [not_found]) in
  let s1 := snd (build_request PyNone s) in
  let s2 := (fst s1, wire [inr "oops"]) in
  reachable s
  /\ fst (build_request PyNone s) = inl (HTTPError 404 "Not Found")
  /\ request_state (fst s1)
     = (Some "http://datapoint.metoffice.gov.uk/public/data/val/wxobs/all/json/3772?res=hourly&key=KEY",
        None, None)
  /\ fst (parse_response s2) = inl (ValueError "No JSON object could be decoded")
  /\ request_str (fst (snd (parse_response s2))) = request_str (fst s2)
  /\ data (fst (snd (parse_response s2))) = data (fst s2).
Proof.
  cbv zeta.
  destruct (@failure_and_request_state (stub no_json)) as (_ & Hbuild & Hparse & _).
  split; [freshly_built|]. split; [reflexivity|].
  split.
  - apply (Hbuild PyNone example_request (wire [not_found]) (HTTPError 404 "Not Found"));
      [freshly_built | reflexivity].
  - split; [reflexivity|].
    destruct (Hparse (fst (snd (@build_request (stub no_json) PyNone
                                  (example_request, wire [not_found]))))
                (wire [inr "oops"]) _ _ eq_refl) as (Hurl & Hdata & _).
    split; [exact Hurl | exact Hdata].
Defined.

Lemma resource_is_slash_joined_witness :
  reachable (@site_request (stub inr), wire [])
  /\ @resource_path (stub inr) site_request = inr "val/wxobs/all/json/3772"
  /\ request_str (fst (snd (@build_request (stub inr) PyNone (site_request, wire []))))
     = Some "http://datapoint.metoffice.gov.uk/public/data/val/wxobs/all/json/3772?res=hourly&key=KEY".
Proof.
  split; [freshly_built|].
  destruct (@resource_is_slash_joined (stub inr) site_request (wire [])
              "val" "wxobs" "all" "3772" (reach_init _ _ _ _ _ _ _ _)
              eq_refl eq_refl eq_refl eq_refl) as (Hpath & _ & Hurl).
  split; [exact Hpath | exact Hurl].
Defined.

Lemma res_option_terminator_witness :
  isinstance_int (PyInt 3) = true
  /\ build_query [("res", PyInt 3)] "" = inr "res=3hourly&"
  /\ isinstance_int (PyStr "x") = false
  /\ build_query [("res", PyStr "x")] "" = inr "res=x&"
  /\ "query_time" <> "res"
  /\ build_query [("query_time", PyInt 3)] "" = inr "query_time=3&".
Proof.
  destruct (res_option_terminator [] []) as (qpre & qpost & Hpre & Hpost & _ & Hint & Hstr & Hkw).
  cbn in Hpre, Hpost. injection Hpre as <-. injection Hpost as <-.
  assert (Hneq : "query_time" <> "res") by discriminate.
  split; [reflexivity|]. split; [exact (Hint (PyInt 3) eq_refl)|].
  split; [reflexivity|]. split; [exact (Hstr (PyStr "x") eq_refl)|].
  split; [exact Hneq | exact (Hkw "query_time" (PyInt 3) Hneq)].
Defined.

Lemma empty_options_url_witness :
  reachable (@all_sites_request (stub inr), wire [inr "{}"])
  /\ kwargs (@all_sites_request (stub inr)) = []
  /\ request_str (fst (snd (@build_request (stub inr) PyNone
                               (all_sites_request, wire [inr "{}"]))))
     = Some "http://datapoint.metoffice.gov.uk/public/data/val/wxfcs/all/json/all?key=KEY".
Proof.
  split; [freshly_built|]. split; [reflexivity|].
  apply (proj2 (@empty_options_url (stub inr) all_sites_request (wire [inr "{}"]) PyNone
                  (reach_init _ _ _ _ _ _ _ _) eq_refl)).
Defined.

Lemma parse_before_build_witness :
  let s := (@all_sites_request (stub inr), wire [inr "{}"]) in
  reachable s
  /\ request_str (fst s) = None
  /\ parse_response s = (inl (ValueError "Request string has not been defined."), s).
Proof.
  cbv zeta. split; [freshly_built|]. split; [reflexivity|].
  apply (@parse_before_build (stub inr)); [freshly_built | reflexivity].
Defined.

Lemma transport_error_propagates_witness :
  let url := "http://datapoint.metoffice.gov.uk/public/data/val/wxobs/all/json/3772?res=hourly&key=KEY" in
  let w1 := mkWire [] [url; url] [url; "Requesting data, please wait..."] in
  request_str (fst refused_request) = Some url
  /\ @urlopen (stub inr) url (snd refused_request) = (inl (HTTPError 404 "Not Found"), w1)
  /\ @_request (stub inr) refused_request
     = (inl (HTTPError 404 "Not Found"), (fst refused_request, w1))
  /\ @parse_response (stub inr) refused_request
     = (inl (HTTPError 404 "Not Found"), (fst refused_request, w1)).
Proof.
  cbv zeta. split; [reflexivity|]. split; [reflexivity|].
  destruct (@transport_error_propagates (stub inr) (fst refused_request)
              (snd refused_request) _ _ 404 "Not Found" eq_refl eq_refl)
    as (Hsend & Hparse & _).
  split; [exact Hsend | exact (Hparse eq_refl)].
Defined.

Lemma rebuild_recomputes_url_witness :
  let s1 := snd (@build_request (stub inr) PyNone (all_sites_request, wire [inr "{}"])) in
  let s2 := snd (@build_request (stub inr) PyNone
                   (setattr A_site_id (PyStr "3840") (fst s1), wire [inr "[]"])) in
  reachable (@all_sites_request (stub inr), wire [inr "{}"])
  /\ site_id (@all_sites_request (stub inr)) = PyStr "all"
  /\ "all" <> "3840"
  /\ request_str (fst s2)
     = Some "http://datapoint.metoffice.gov.uk/public/data/val/wxfcs/all/json/3840?key=KEY"
  /\ request_str (fst s2) <> request_str (fst s1).
Proof.
  cbv zeta. split; [freshly_built|]. split; [reflexivity|].
  assert (Hneq : "all" <> "3840") by discriminate.
  split; [exact Hneq|].
  destruct (@rebuild_recomputes_url (stub inr) all_sites_request (wire [inr "{}"])
              (reach_init _ _ _ _ _ _ _ _)) as (_ & _ & Hchange).
  destruct (Hchange "all" "3840" (wire [inr "[]"]) eq_refl Hneq) as (Hurl & Hdiff & _).
  split; [exact Hurl | exact Hdiff].
Defined.

Lemma types_are_not_validated_witness :
  let self := @__init__ (stub inr) (PyStr "image") (PyStr "radar") (PyStr "KEY") PyNone
                (PyStr "all") (PyStr "all") [] in
  In "image" unsupported_data_types
  /\ (exists rest,
        request_str (fst (snd (build_request PyNone (self, wire [not_found]))))
        = Some ("http://datapoint.metoffice.gov.uk/public/data/image/radar/" ++ rest))
  /\ build_request PyNone (self, wire [not_found])
     = (inl (HTTPError 404 "Not Found"), snd (build_request PyNone (self, wire [not_found])))
  /\ (exists w0 w1,
        (exists url, @urlopen (stub inr) url w0 = (inl (HTTPError 404 "Not Found"), w1))
        \/ (exists conn, @read (stub inr) conn w0 = (inl (HTTPError 404 "Not Found"), w1)))
  /\ @_request (stub inr) (setattr A_data_type (PyStr "layer") self, wire [])
     = on_object (setattr A_data_type (PyStr "layer")) (_request (self, wire [])).
Proof.
  cbv zeta.
  destruct (@types_are_not_validated (stub inr) "image" "radar" (PyStr "KEY") PyNone
              (PyStr "all") (PyStr "all") [] (wire [not_found]))
    as (_ & Hurl & Hraise & Hother).
  split; [now left|]. split; [exact Hurl|]. split; [reflexivity|].
  split; [exact (Hraise _ _ eq_refl)|].
  exact (proj1 (Hother A_data_type (PyStr "layer") _ (wire []) (or_introl eq_refl))).
Defined.

(** * Further properties of the class *)

Section Lifecycle.

Context {E : Externals}.

(** ** What a method can do to the object *)

Lemma stored_nothing (self : DPRequest) : stored None None None self = self.
Proof. destruct self; reflexivity. Qed.

Lemma send_stored (url : string) (self : DPRequest) (w : World) :
  exists body, fst (snd (send url self w)) = stored None body None self.
Proof.
  destruct (send_cases url self w) as [(e & w' & ->)|(body & w' & ->)].
  - exists None. now rewrite stored_nothing.
  - exists (Some body). reflexivity.
Qed.

Lemma build_request_stored (resource : pyval) (self : DPRequest) (w : World) :
  exists url body,
    fst (snd (build_request resource (self, w))) = stored url body None self.
Proof.
  unfold build_request, bind, get_self, lift, ret, assign, print.
  cbn [fst snd]. rewrite resource_path_eq, build_query_fragment.
  destruct (is_None resource);
    (destruct (format (base_url self) _) as [e|url];
     [exists None, None; now rewrite stored_nothing|]);
    cbn [fst snd]; rewrite _request_eq; cbn [request_str set_request_str];
    match goal with |- context [send ?u ?o ?v] =>
      destruct (send_cases u o v) as [(e & w' & ->)|(body & w' & ->)] end;
    [exists (Some url), None | exists (Some url), (Some body)
    |exists (Some url), None | exists (Some url), (Some body)]; reflexivity.
Qed.

Lemma parse_response_stored (self : DPRequest) (w : World) :
  exists body parsed,
    fst (snd (parse_response (self, w))) = stored None body parsed self.
Proof.
  destruct (response self) as [body|] eqn:Hresp.
  - rewrite (parse_response_cached _ _ body Hresp).
    destruct (json_loads body) as [e|d].
    + exists None, None. now rewrite stored_nothing.
    + exists None, (Some d). reflexivity.
  - destruct (request_str self) as [url|] eqn:Hurl.
    + rewrite (parse_response_fetch _ _ url Hresp Hurl).
      destruct (send_cases url self w) as [(e & w' & ->)|(body & w' & ->)].
      * exists None, None. now rewrite stored_nothing.
      * cbn [response set_response].
        destruct (json_loads body) as [e|d];
          [exists (Some body), None | exists (Some body), (Some d)]; reflexivity.
    + rewrite parse_response_not_built by assumption.
      exists None, None. now rewrite stored_nothing.
Qed.

Lemma method_stored (c : call) (s : DPRequest * World) :
  is_method c = true ->
  exists url body parsed, fst (after c s) = stored url body parsed (fst s).
Proof.
  destruct s as [self w]. cbn [fst].
  destruct c as [| |rt|resource| |a v]; cbn [after is_method]; intros Hm;
    try discriminate.
  - rewrite _request_eq. destruct (request_str self) as [url|].
    + destruct (send_stored url self w) as (body & ->). now exists None, body, None.
    + exists None, None, None. now rewrite stored_nothing.
  - exists None, None, None. rewrite stored_nothing.
    unfold query_string, bind, get_self, ret. cbn [fst snd].
    destruct (request_str self); reflexivity.
  - destruct (common_requests_cases rt self w) as [(e & ->)|(resource & _ & ->)].
    + exists None, None, None. now rewrite stored_nothing.
    + destruct (build_request_stored resource self w) as (url & body & ->).
      now exists url, body, None.
  - destruct (build_request_stored resource self w) as (url & body & ->).
    now exists url, body, None.
  - destruct (parse_response_stored self w) as (body & parsed & ->).
    now exists None, body, parsed.
Qed.

(** ** Invariants *)

(** X1.  Whatever sequence of method calls and configuration assignments
    an object has gone through since [__init__]: its URL template and its
    data container are the ones [__init__] set, a response is present only
    if a URL has been built, parsed data are present only if a response
    is, and [http_code] is still [None]. *)
Theorem reachable_invariant (s : DPRequest * World) :
  reachable s ->
  base_url (fst s) = "http://datapoint.metoffice.gov.uk/public/data/{}?{}key={}"
  /\ data_container (fst s) = "json"
  /\ (response (fst s) <> None -> request_str (fst s) <> None)
  /\ (data (fst s) <> None -> response (fst s) <> None)
  /\ http_code (fst s) = None.
Proof.
  intros Hreach.
  destruct (reachable_consistent s Hreach) as (Hb & Hc & Hu & Hr).
  split; [exact Hb|]. split; [exact Hc|].
  split; [intros Hresp Hurl; exact (Hresp (Hu Hurl))|].
  split; [intros Hdata Hresp; exact (Hdata (Hr Hresp))|].
  clear Hb Hc Hu Hr.
  induction Hreach as [dt wx key rt tp sid kw w|c s Hreach IH]; [reflexivity|].
  destruct (is_method c) eqn:Hm.
  - destruct (method_stored c s Hm) as (u & b & d & ->). exact IH.
  - destruct c; try discriminate. exact IH.
Qed.

(** X2.  No method touches the configuration: after [_request],
    [query_string], [common_requests], [build_request] or
    [parse_response], returning or raising, the constructor arguments and
    the constants of [__init__] are what they were. *)
Theorem methods_keep_configuration (c : call) (s : DPRequest * World) :
  is_method c = true ->
  config (fst (after c s)) = config (fst s).
Proof.
  intros Hm. destruct (method_stored c s Hm) as (u & b & d & ->). reflexivity.
Qed.


(** ** [query_string] *)

(** X4.  [query_string] never raises and changes neither the object nor
    the world.  On an object without a built URL it returns the unfilled
    template; after a build, whatever the transport did, it returns the
    URL that build computed. *)
Theorem query_string_reports_url (self : DPRequest) (w : World) :
  reachable (self, w) ->
  (request_str self = None ->
   query_string (self, w)
   = (inr "http://datapoint.metoffice.gov.uk/public/data/{}?{}key={}", (self, w)))
  /\ (forall url, request_str self = Some url ->
      query_string (self, w) = (inr url, (self, w)))
  /\ (forall resource,
      let s1 := snd (build_request resource (self, w)) in
      query_string s1 = (inr (built_url resource self), s1)).
Proof.
  intros Hreach.
  assert (Hcons : consistent self) by apply (reachable_consistent _ Hreach).
  assert (Hq : forall o v, query_string (o, v)
                           = (inr match request_str o with
                                  | Some url => url
                                  | None => base_url o
                                  end, (o, v))).
  { intros o v. unfold query_string, bind, get_self, ret. cbn [fst snd].
    destruct (request_str o); reflexivity. }
  split; [|split].
  - intros Hurl. rewrite Hq, Hurl. destruct Hcons as (-> & _). reflexivity.
  - intros url Hurl. now rewrite Hq, Hurl.
  - intros resource s1. destruct s1 as [o v] eqn:Hs1.
    assert (Ho : request_str o = Some (built_url resource self)).
    { replace o with (fst (snd (build_request resource (self, w))))
        by (unfold s1 in Hs1; now rewrite Hs1).
      now apply build_request_stores_url. }
    now rewrite Hq, Ho.
Qed.

(** ** [common_requests] *)

(** X5.  The four shorthands for site lists and capabilities resolve: on
    a reachable object the call is a build with the template filled with
    [json], and the URL stored is that resource followed by the extra
    options and the key.  The object's own data type, weather type, time
    period and site id do not enter it. *)
Theorem listing_shorthands_resolve
    (name wx kind : string) (self : DPRequest) (w : World) :
  reachable (self, w) ->
  In (name, (wx, kind))
     [("fcs_sites", ("wxfcs", "sitelist")); ("fcs_capabilities", ("wxfcs", "capabilities"));
      ("obs_sites", ("wxobs", "sitelist")); ("obs_capabilities", ("wxobs", "capabilities"))] ->
  let resource := "val/" ++ wx ++ "/all/json/" ++ kind in
  common_requests (PyStr name) (self, w) = build_request (PyStr resource) (self, w)
  /\ request_str (fst (snd (common_requests (PyStr name) (self, w))))
     = Some (url_for resource (query_fragment (kwargs self)) (py_str (api_key self))).
Proof.
  intros Hreach Hin resource.
  assert (Hcons : consistent self) by apply (reachable_consistent _ Hreach).
  rewrite (common_requests_listing name kind wx self w Hin).
  destruct Hcons as (Hb & Hc & Hrest). rewrite Hc.
  split; [reflexivity|].
  rewrite build_request_stores_url by (repeat split; tauto || assumption).
  reflexivity.
Qed.

(** X6.  No call of [common_requests] ever builds a five-day request: a
    five-day shorthand raises the [AttributeError] whatever the site id of
    the object, and a URL found in the object after any call of
    [common_requests] is either the one that was there before or the URL
    of a site list or capabilities request. *)
Theorem fiveday_never_resolves
    (request_type : pyval) (self : DPRequest) (w : World) :
  reachable (self, w) ->
  (request_type = PyStr "fcs_fiveday" \/ request_type = PyStr "obs_fiveday" ->
   common_requests request_type (self, w)
   = (inl (AttributeError "'DPRequest' object has no attribute 'locn_id'"), (self, w)))
  /\ (request_str (fst (snd (common_requests request_type (self, w)))) = request_str self
      \/ exists wx kind,
           In wx ["wxfcs"; "wxobs"] /\ In kind ["sitelist"; "capabilities"]
           /\ request_str (fst (snd (common_requests request_type (self, w))))
              = Some (url_for ("val/" ++ wx ++ "/all/json/" ++ kind)
                        (query_fragment (kwargs self)) (py_str (api_key self)))).
Proof.
  intros Hreach.
  assert (Hcons : consistent self) by apply (reachable_consistent _ Hreach).
  assert (Hjson : data_container self = "json") by apply Hcons.
  split.
  - intros [->| ->]; apply common_requests_fiveday; auto.
  - destruct (py_in request_type (map fst request_types)) eqn:Hin.
    + apply py_in_request_types in Hin. destruct Hin as (name & -> & Hin).
      simpl in Hin.
      assert (Hlist : forall nm wx kind,
                 In (nm, (wx, kind))
                    [("fcs_sites", ("wxfcs", "sitelist"));
                     ("fcs_capabilities", ("wxfcs", "capabilities"));
                     ("obs_sites", ("wxobs", "sitelist"));
                     ("obs_capabilities", ("wxobs", "capabilities"))] ->
                 request_str (fst (snd (common_requests (PyStr nm) (self, w))))
                 = Some (url_for ("val/" ++ wx ++ "/all/json/" ++ kind)
                           (query_fragment (kwargs self)) (py_str (api_key self)))).
      { intros nm wx kind Hnm.
        rewrite (common_requests_listing nm kind wx self w Hnm), Hjson.
        now rewrite build_request_stores_url. }
      destruct Hin as [<-|[<-|[<-|[<-|[<-|[<-|[]]]]]]].
      * right. exists "wxfcs", "sitelist".
        split; [simpl; auto|]. split; [simpl; auto|].
        apply (Hlist "fcs_sites" "wxfcs" "sitelist"). simpl; auto 6.
      * right. exists "wxfcs", "capabilities".
        split; [simpl; auto|]. split; [simpl; auto|].
        apply (Hlist "fcs_capabilities" "wxfcs" "capabilities"). simpl; auto 6.
      * left. rewrite common_requests_fiveday by auto. reflexivity.
      * right. exists "wxobs", "sitelist".
        split; [simpl; auto|]. split; [simpl; auto|].
        apply (Hlist "obs_sites" "wxobs" "sitelist"). simpl; auto 6.
      * right. exists "wxobs", "capabilities".
        split; [simpl; auto|]. split; [simpl; auto|].
        apply (Hlist "obs_capabilities" "wxobs" "capabilities"). simpl; auto 6.
      * left. rewrite common_requests_fiveday by auto. reflexivity.
    + left. rewrite common_requests_unknown by exact Hin. reflexivity.
Qed.

(** ** Building, sending and parsing together *)

(** X7.  After a build that returned, the body is stored, and a parse
    decodes that body without going back to the service: the world is the
    one the build left.  The parse returns what [json.loads] makes of the
    body, and raises what it raises. *)
Theorem parse_after_build_does_not_fetch
    (resource : pyval) (self : DPRequest) (w : World) (s1 : DPRequest * World) :
  reachable (self, w) ->
  build_request resource (self, w) = (inr tt, s1) ->
  exists body,
    response (fst s1) = Some body
    /\ parse_response s1
       = match json_loads body with
         | inl e => (inl e, s1)
         | inr d => (inr d, (set_data (Some d) (fst s1), snd s1))
         end.
Proof.
  intros Hreach Hrun.
  assert (Hcons : consistent self) by apply (reachable_consistent _ Hreach).
  rewrite build_request_eq in Hrun by apply Hcons. cbv zeta in Hrun.
  match type of Hrun with send ?u ?o ?v = _ =>
    destruct (send_cases u o v) as [(e & w' & Hs)|(body & w' & Hs)] end;
    rewrite Hs in Hrun; [discriminate|].
  injection Hrun as <-. exists body. split; [reflexivity|].
  cbn [fst snd]. rewrite (parse_response_cached _ w' body) by reflexivity.
  destruct (json_loads body); reflexivity.
Qed.

(** X8.  Parsing is repeatable: once [parse_response] has returned, a
    second call returns the same data and changes neither the object nor
    the world (in particular it does not fetch again). *)
Theorem parse_twice (s s1 : DPRequest * World) (d : Data) :
  parse_response s = (inr d, s1) ->
  parse_response s1 = (inr d, s1) /\ data (fst s1) = Some d.
Proof.
  destruct s as [self w]. intros Hrun.
  assert (Hshape : exists o v body,
             s1 = (set_data (Some d) o, v) /\ response o = Some body
             /\ json_loads body = inr d).
  { destruct (response self) as [body|] eqn:Hresp.
    - rewrite (parse_response_cached _ _ body Hresp) in Hrun.
      destruct (json_loads body) as [e|d'] eqn:Hjson; [discriminate|].
      injection Hrun as <- <-. exists self, w, body. auto.
    - destruct (request_str self) as [url|] eqn:Hurl.
      + rewrite (parse_response_fetch _ _ url Hresp Hurl) in Hrun.
        destruct (send_cases url self w) as [(e & w' & Hs)|(body & w' & Hs)];
          rewrite Hs in Hrun; [discriminate|].
        cbn [response set_response] in Hrun.
        destruct (json_loads body) as [e|d'] eqn:Hjson; [discriminate|].
        injection Hrun as <- <-.
        exists (set_response (Some body) self), w', body. auto.
      + rewrite parse_response_not_built in Hrun by assumption. discriminate. }
  destruct Hshape as (o & v & body & -> & Hresp & Hjson).
  split; [|reflexivity].
  rewrite (parse_response_cached _ v body) by exact Hresp.
  rewrite Hjson. reflexivity.
Qed.

(** X9.  A build never clears what an earlier request left behind.  The
    parsed data are untouched by it, and when the build raises, so is the
    raw response: a parse that follows then decodes the body fetched for
    the earlier URL, without contacting the service, although the object
    already holds the new URL. *)
Theorem failed_rebuild_leaves_stale_response
    (resource : pyval) (self : DPRequest) (w : World) (body : string) :
  reachable (self, w) ->
  response self = Some body ->
  data (fst (snd (build_request resource (self, w)))) = data self
  /\ forall e s',
      build_request resource (self, w) = (inl e, s') ->
      request_str (fst s') = Some (built_url resource self)
      /\ response (fst s') = Some body
      /\ parse_response s'
         = match json_loads body with
           | inl e' => (inl e', s')
           | inr d => (inr d, (set_data (Some d) (fst s'), snd s'))
           end.
Proof.
  intros Hreach Hresp.
  assert (Hcons : consistent self) by apply (reachable_consistent _ Hreach).
  split.
  - destruct (build_request_stored resource self w) as (u & b & ->). reflexivity.
  - intros e s' Hrun.
    rewrite build_request_eq in Hrun by apply Hcons. cbv zeta in Hrun.
    match type of Hrun with send ?u ?o ?v = _ =>
      destruct (send_cases u o v) as [(e' & w' & Hs)|(body' & w' & Hs)] end;
      rewrite Hs in Hrun; [|discriminate].
    injection Hrun as _ <-. cbn [fst snd request_str response set_request_str].
    split; [reflexivity|]. split; [exact Hresp|].
    rewrite (parse_response_cached _ w' body) by exact Hresp.
    destruct (json_loads body); reflexivity.
Qed.

(** ** The URL and the configuration *)

(** X10.  The query fragment is empty only for an empty mapping of extra
    options, and the fragment of two mappings iterated one after the
    other is the fragment of the first followed by that of the second;
    the loop cannot fail. *)
Theorem query_fragment_structure (first second : list (string * pyval)) :
  (build_query first "" = inr "" <-> first = [])
  /\ exists q1 q2,
       build_query first "" = inr q1
       /\ build_query second "" = inr q2
       /\ build_query (first ++ second) "" = inr (q1 ++ q2).
Proof.
  split.
  - rewrite build_query_fragment. cbn [append]. split.
    + destruct first as [|[kw val] rest]; [reflexivity|].
      intros H. injection H as H. unfold query_fragment, option_segment in H.
      fold query_fragment in H.
      apply (f_equal String.length) in H.
      rewrite !append_length in H. cbn in H. lia.
    + intros ->. reflexivity.
  - exists (query_fragment first), (query_fragment second).
    rewrite !build_query_fragment, query_fragment_app. auto.
Qed.

(** X11.  Reassigning one configuration attribute changes the URL a
    build computes exactly when the new value is rendered differently
    from the old one: the integer [3772] and the string ['3772'] give the
    same URL, two different strings never do. *)
Theorem attribute_change_and_url (a : attr) (v : pyval) (self : DPRequest) :
  built_url PyNone (setattr a v self) = built_url PyNone self
  <-> py_str v = py_str (getattr a self).
Proof.
  unfold built_url. cbn [is_None]. unfold resource_of.
  destruct a;
    cbn [getattr data_type wx_type api_key time_period site_id kwargs
         data_container setattr];
    (split; [intros H | intros ->; reflexivity]).
  - apply url_for_resource_inj in H. exact (append_cancel_r _ _ _ H).
  - apply url_for_resource_inj in H. repeat apply append_cancel_l in H.
    exact (append_cancel_r _ _ _ H).
  - unfold url_for in H. repeat apply append_cancel_l in H. exact H.
  - apply url_for_resource_inj in H. repeat apply append_cancel_l in H.
    exact (append_cancel_r _ _ _ H).
  - apply url_for_resource_inj in H. repeat apply append_cancel_l in H. exact H.
Qed.

(** ** What can be raised *)

Lemma send_raises (url : string) (self : DPRequest) (w : World)
    (e : exn) (s' : DPRequest * World) :
  send url self w = (inl e, s') ->
  (exists url0 w0, fst (urlopen url0 w0) = inl e)
  \/ (exists conn w0, fst (read conn w0) = inl e).
Proof.
  unfold send. destruct (urlopen url w) as [[e'|conn] w1] eqn:Hopen.
  - intros H. injection H as <- _. left. exists url, w. now rewrite Hopen.
  - destruct (read conn w1) as [[e'|body] w2] eqn:Hread; [|discriminate].
    intros H. injection H as <- _. right. exists conn, w1. now rewrite Hread.
Qed.

(** X12.  On a reachable object a call raises nothing but: the two
    [ValueError]s for a request that is not built, the [AttributeError]
    and the [TypeError] of [common_requests], an exception raised by
    [urlopen] or [read], or one raised by [json.loads].  Formatting,
    splitting, unpacking and dictionary lookup inside the class never
    fail. *)
Theorem raised_exceptions (c : call) (s : DPRequest * World) (e : exn) :
  reachable s ->
  raised c s = Some e ->
  In e [ValueError "Request string has not been set.";
        ValueError "Request string has not been defined.";
        AttributeError "'DPRequest' object has no attribute 'locn_id'";
        TypeError "'list' object is not callable"]
  \/ (exists url w0, fst (urlopen url w0) = inl e)
  \/ (exists conn w0, fst (read conn w0) = inl e)
  \/ (exists body, json_loads body = inl e).
Proof.
  destruct s as [self w]. intros Hreach.
  assert (Hcons : consistent self) by apply (reachable_consistent _ Hreach).
  assert (Htransport : forall url o v s',
             send url o v = (inl e, s') ->
             In e [ValueError "Request string has not been set.";
                   ValueError "Request string has not been defined.";
                   AttributeError "'DPRequest' object has no attribute 'locn_id'";
                   TypeError "'list' object is not callable"]
             \/ (exists url w0, fst (urlopen url w0) = inl e)
             \/ (exists conn w0, fst (read conn w0) = inl e)
             \/ (exists body, json_loads body = inl e)).
  { intros url o v s' Hs. destruct (send_raises _ _ _ _ _ Hs) as [H|H]; auto. }
  assert (Hbuild : forall resource,
             fst (build_request resource (self, w)) = inl e ->
             exists url o v s', send url o v = (inl e, s')).
  { intros resource. rewrite build_request_eq by apply Hcons. cbv zeta.
    match goal with |- context [send ?u ?o ?v] =>
      destruct (send u o v) as [r s'] eqn:Hs; cbn [fst]; intros ->;
      exists u, o, v, s'; exact Hs end. }
  destruct c as [| |rt|resource| |a v]; unfold raised; cbn beta iota.
  - rewrite _request_eq. destruct (request_str self) as [url|].
    + destruct (send url self w) as [[e'|[]] s'] eqn:Hs; cbn [fst];
        intros H; [injection H as ->; eauto | discriminate].
    + cbn [fst]. intros H. injection H as <-. left. simpl. auto.
  - unfold query_string, bind, get_self, ret. cbn [fst snd].
    destruct (request_str self); discriminate.
  - destruct (py_in rt (map fst request_types)) eqn:Hin.
    + apply py_in_request_types in Hin. destruct Hin as (name & -> & Hin).
      simpl in Hin.
      assert (Hlist : forall nm wx kind,
                 In (nm, (wx, kind))
                    [("fcs_sites", ("wxfcs", "sitelist"));
                     ("fcs_capabilities", ("wxfcs", "capabilities"));
                     ("obs_sites", ("wxobs", "sitelist"));
                     ("obs_capabilities", ("wxobs", "capabilities"))] ->
                 match fst (common_requests (PyStr nm) (self, w)) with
                 | inl e' => Some e'
                 | inr _ => None
                 end = Some e ->
                 exists url o v s', send url o v = (inl e, s')).
      { intros nm wx kind Hnm.
        rewrite (common_requests_listing nm kind wx self w Hnm).
        match goal with |- context [build_request ?r _] =>
          specialize (Hbuild r);
          destruct (fst (build_request r (self, w))) as [e'|] end;
          intros H; [injection H as ->; now apply Hbuild | discriminate]. }
      destruct Hin as [<-|[<-|[<-|[<-|[<-|[<-|[]]]]]]].
      * intros H. apply (Hlist "fcs_sites" "wxfcs" "sitelist") in H; [|simpl; auto].
        destruct H as (url & o & v & s' & H). eauto.
      * intros H. apply (Hlist "fcs_capabilities" "wxfcs" "capabilities") in H;
          [|simpl; auto].
        destruct H as (url & o & v & s' & H). eauto.
      * rewrite common_requests_fiveday by auto. cbn [fst].
        intros H. injection H as <-. left. simpl. auto.
      * intros H. apply (Hlist "obs_sites" "wxobs" "sitelist") in H; [|simpl; auto].
        destruct H as (url & o & v & s' & H). eauto.
      * intros H. apply (Hlist "obs_capabilities" "wxobs" "capabilities") in H;
          [|simpl; auto 6].
        destruct H as (url & o & v & s' & H). eauto.
      * rewrite common_requests_fiveday by auto. cbn [fst].
        intros H. injection H as <-. left. simpl. auto.
    + rewrite common_requests_unknown by exact Hin. cbn [fst].
      intros H. injection H as <-. left. simpl. auto.
  - specialize (Hbuild resource).
    destruct (fst (build_request resource (self, w))) as [e'|];
      intros H; [injection H as ->|discriminate].
    destruct (Hbuild eq_refl) as (url & o & v & s' & Hs). eauto.
  - destruct (response self) as [body|] eqn:Hresp.
    + rewrite (parse_response_cached _ _ body Hresp).
      destruct (json_loads body) as [e'|d] eqn:Hjson; cbn [fst];
        intros H; [injection H as ->|discriminate].
      right. right. right. eauto.
    + destruct (request_str self) as [url|] eqn:Hurl.
      * rewrite (parse_response_fetch _ _ url Hresp Hurl).
        destruct (send url self w) as [[e'|[]] [o v]] eqn:Hs.
        -- cbn [fst]. intros H. injection H as ->. eauto.
        -- destruct (send_cases url self w) as [(e' & w' & Hs')|(body & w' & Hs')];
             rewrite Hs' in Hs; [discriminate|].
           injection Hs as <- <-. cbn [response set_response].
           destruct (json_loads body) as [e'|d] eqn:Hjson; cbn [fst];
             intros H; [injection H as ->|discriminate].
           right. right. right. eauto.
      * rewrite parse_response_not_built by assumption. cbn [fst].
        intros H. injection H as <-. left. simpl. auto.
  - discriminate.
Qed.

(** ** The script [example.py] *)

Lemma build_returns_body
    (resource : pyval) (self : DPRequest) (w : World) (s1 : DPRequest * World) :
  consistent self ->
  build_request resource (self, w) = (inr tt, s1) ->
  exists body, response (fst s1) = Some body.
Proof.
  intros Hcons Hrun.
  rewrite build_request_eq in Hrun by apply Hcons. cbv zeta in Hrun.
  match type of Hrun with send ?u ?o ?v = _ =>
    destruct (send_cases u o v) as [(e & w' & Hs)|(body & w' & Hs)] end;
    rewrite Hs in Hrun; [discriminate|].
  injection Hrun as <-. now exists body.
Qed.

(** X13.  The request part of [example.py], for any key typed in and any
    behaviour of the service.  The URL requested is the observations of
    site 3772 with [res=hourly] (the string, so no [hourly] is appended)
    and the key.  If the build raises, the script stops there with that
    exception.  If it returns, [parse_response] decodes the body it
    stored and leaves the world as the build left it. *)
Theorem example_session (api_key : string) (w : World) :
  let url := "http://datapoint.metoffice.gov.uk/public/data/val/wxobs/all/json/3772?res=hourly&key="
               ++ api_key in
  request_str (fst (snd (example_main api_key w))) = Some url
  /\ (forall e s',
        build_request PyNone (example_url1 api_key, w) = (inl e, s') ->
        example_main api_key w = (inl e, s'))
  /\ (forall s1,
        build_request PyNone (example_url1 api_key, w) = (inr tt, s1) ->
        exists body,
          response (fst s1) = Some body
          /\ fst (example_main api_key w) = json_loads body
          /\ snd (snd (example_main api_key w)) = snd s1).
Proof.
  intros url.
  assert (Hcons : consistent (example_url1 api_key)) by apply consistent_init.
  assert (Hurl : request_str (fst (snd (build_request PyNone (example_url1 api_key, w))))
                 = Some url)
    by (rewrite build_request_stores_url by exact Hcons; reflexivity).
  assert (Hok : forall s1,
             build_request PyNone (example_url1 api_key, w) = (inr tt, s1) ->
             exists body,
               response (fst s1) = Some body
               /\ example_main api_key w
                  = match json_loads body with
                    | inl e => (inl e, s1)
                    | inr d => (inr d, (set_data (Some d) (fst s1), snd s1))
                    end).
  { intros [o v] Hrun.
    destruct (build_returns_body _ _ _ _ Hcons Hrun) as (body & Hbody).
    exists body. split; [exact Hbody|].
    unfold example_main, bind. rewrite Hrun.
    rewrite (parse_response_cached o v body Hbody).
    destruct (json_loads body); reflexivity. }
  split; [|split].
  - destruct (build_request PyNone (example_url1 api_key, w)) as [[e|[]] s1] eqn:Hrun.
    + unfold example_main, bind. rewrite Hrun. exact Hurl.
    + destruct (Hok s1 eq_refl) as (body & _ & ->).
      destruct (json_loads body); exact Hurl.
  - intros e s' Hrun. unfold example_main, bind. now rewrite Hrun.
  - intros s1 Hrun. destruct (Hok s1 Hrun) as (body & Hbody & ->).
    exists body. split; [exact Hbody|].
    destruct (json_loads body); split; reflexivity.
Qed.

End Lifecycle.

(** ** Walking the decoded report *)

Lemma append_pressures_values (itms values pressure : list json) :
  Forall2 (fun itm p => subscript itm "P" = inr p) itms values ->
  append_pressures itms pressure = inr (pressure ++ values)%list.
Proof.
  intros H. revert pressure.
  induction H as [|itm p itms values Hp _ IH]; intros pressure.
  - cbn. now rewrite app_nil_r.
  - cbn [append_pressures]. rewrite Hp. cbn [rbind].
    rewrite IH, <- app_assoc. reflexivity.
Qed.

Lemma walk_periods_values
    (numbers : list json) (reps values : list (list json)) (pressure : list json) :
  Forall2 (fun number itms => subscript number "Rep" = inr (JList itms)) numbers reps ->
  Forall2 (Forall2 (fun itm p => subscript itm "P" = inr p)) reps values ->
  walk_periods numbers pressure = inr (pressure ++ concat values)%list.
Proof.
  intros Hrep. revert values pressure.
  induction Hrep as [|number itms numbers reps Hnum _ IH];
    intros values pressure Hval;
    inversion Hval as [|? ps ? values' Hps Hvalues']; subst.
  - cbn. now rewrite app_nil_r.
  - cbn [walk_periods concat]. rewrite Hnum. cbn [rbind iter].
    rewrite (append_pressures_values itms ps pressure Hps).
    cbn [rbind]. rewrite (IH values' _ Hvalues'). now rewrite app_assoc.
Qed.

(** X14.  On a report whose [Period] is a list of objects, each with a
    list [Rep] of objects that each have a [P], the loops of [example.py]
    end with [pressure] holding every [P], period by period and in the
    order of the reports; nothing is lost or repeated. *)
Theorem pressures_of_report
    (data1 site_rep dv location : json) (numbers : list json)
    (reps values : list (list json)) :
  subscript data1 "SiteRep" = inr site_rep ->
  subscript site_rep "DV" = inr dv ->
  subscript dv "Location" = inr location ->
  subscript location "Period" = inr (JList numbers) ->
  Forall2 (fun number itms => subscript number "Rep" = inr (JList itms)) numbers reps ->
  Forall2 (Forall2 (fun itm p => subscript itm "P" = inr p)) reps values ->
  retrieve_pressure data1 = inr (concat values)
  /\ length (concat values) = list_sum (map (@length json) reps).
Proof.
  intros H1 H2 H3 H4 Hrep Hval. split.
  - unfold retrieve_pressure. rewrite H1. cbn [rbind]. rewrite H2. cbn [rbind].
    rewrite H3. cbn [rbind]. rewrite H4. cbn [rbind iter].
    now rewrite (walk_periods_values numbers reps values []).
  - clear - Hval. induction Hval as [|itms ps reps values Hps _ IH]; [reflexivity|].
    cbn [concat map list_sum]. rewrite length_app, IH, (Forall2_length Hps).
    reflexivity.
Qed.

(** X15.  When [Period] is an object with at least one member instead of
    a list (as for a single day), the outer loop runs over its keys and
    the script stops with a [TypeError] at [number['Rep']]; likewise when
    the [Rep] of the first period is such an object, at [itm['P']]. *)
Theorem object_in_place_of_list
    (data1 site_rep dv location period : json) (members : list (string * json)) :
  subscript data1 "SiteRep" = inr site_rep ->
  subscript site_rep "DV" = inr dv ->
  subscript dv "Location" = inr location ->
  subscript location "Period" = inr period ->
  members <> [] ->
  period = JDict members
  \/ (exists number rest,
        period = JList (number :: rest)
        /\ subscript number "Rep" = inr (JDict members)) ->
  retrieve_pressure data1 = inl (TypeError "string indices must be integers").
Proof.
  intros H1 H2 H3 H4 Hne Hshape.
  unfold retrieve_pressure. rewrite H1. cbn [rbind]. rewrite H2. cbn [rbind].
  rewrite H3. cbn [rbind]. rewrite H4. cbn [rbind].
  destruct members as [|[k v] members]; [contradiction|].
  destruct Hshape as [->|(number & rest & -> & Hrep)].
  - reflexivity.
  - cbn [iter rbind walk_periods]. rewrite Hrep. reflexivity.
Qed.

(** ** The traffic of a call, observed on the transport stub *)

Lemma stub_send_trace (loads : string -> result string) (url : string)
    (self : @DPRequest (stub loads)) (w : Wire) :
  requested (snd (snd (@send (stub loads) url self w))) = (requested w ++ [url])%list
  /\ printed (snd (snd (@send (stub loads) url self w))) = printed w
  /\ request_str (fst (snd (@send (stub loads) url self w))) = request_str self.
Proof.
  unfold send. cbn. destruct (pending w) as [|[e|body] replies]; cbn; auto.
Qed.

Lemma stub_build_trace (loads : string -> result string) (resource : pyval)
    (self : @DPRequest (stub loads)) (w : Wire) :
  consistent self ->
  let s' := snd (@build_request (stub loads) resource (self, w)) in
  requested (snd s') = (requested w ++ [built_url resource self])%list
  /\ printed (snd s')
     = (printed w ++ [built_url resource self; "Requesting data, please wait..."])%list
  /\ request_str (fst s') = Some (built_url resource self).
Proof.
  intros Hcons s'. subst s'.
  rewrite (@build_request_eq (stub loads)) by apply Hcons. cbv zeta.
  match goal with |- context [@send _ ?u ?o ?v] =>
    destruct (stub_send_trace loads u o v) as (Hreq & Hpr & Hurl) end.
  rewrite Hreq, Hpr, Hurl. cbn. rewrite <- app_assoc. auto.
Qed.

(** X16.  Observed in a world that records the connections opened and
    the lines printed: a call opens at most one connection, and only to
    the URL the object holds when the call ends; a call that prints,
    prints that URL, API key included, and the notice.  Nothing is
    retried and no other address is contacted. *)
Theorem one_request_per_call (loads : string -> result string) (c : call)
    (s : @DPRequest (stub loads) * @World (stub loads)) :
  @reachable (stub loads) s ->
  let s' := @after (stub loads) c s in
  (requested (snd s') = requested (snd s) /\ printed (snd s') = printed (snd s))
  \/ exists url,
       request_str (fst s') = Some url
       /\ requested (snd s') = (requested (snd s) ++ [url])%list
       /\ (printed (snd s') = printed (snd s)
           \/ printed (snd s')
              = (printed (snd s) ++ [url; "Requesting data, please wait..."])%list).
Proof.
  destruct s as [self w]. intros Hreach s'. subst s'.
  assert (Hcons : consistent self) by apply (reachable_consistent _ Hreach).
  assert (Hbuild : forall resource,
             exists url,
               request_str (fst (snd (@build_request (stub loads) resource (self, w))))
               = Some url
               /\ requested (snd (snd (@build_request (stub loads) resource (self, w))))
                  = (requested w ++ [url])%list
               /\ printed (snd (snd (@build_request (stub loads) resource (self, w))))
                  = (printed w ++ [url; "Requesting data, please wait..."])%list).
  { intros resource.
    destruct (stub_build_trace loads resource self w Hcons) as (Hreq & Hpr & Hurl).
    eauto. }
  assert (Hsent : forall url, request_str self = Some url ->
             request_str (fst (snd (@send (stub loads) url self w))) = Some url
             /\ requested (snd (snd (@send (stub loads) url self w)))
                = (requested w ++ [url])%list
             /\ printed (snd (snd (@send (stub loads) url self w))) = printed w).
  { intros url Hurl.
    destruct (stub_send_trace loads url self w) as (Hreq & Hpr & Hu).
    rewrite Hu. auto. }
  destruct c as [| |rt|resource| |a v]; cbn [after fst snd].
  - rewrite (@_request_eq (stub loads)).
    destruct (request_str self) as [url|] eqn:Hurl; [|left; auto].
    destruct (Hsent url eq_refl) as (Hu & Hreq & Hpr). right. exists url. auto.
  - left. unfold query_string, bind, get_self, ret. cbn [fst snd].
    destruct (request_str self); auto.
  - destruct (@common_requests_cases (stub loads) rt self w)
      as [(e & ->)|(resource & _ & ->)]; [left; auto|].
    destruct (Hbuild resource) as (url & Hu & Hreq & Hpr). right. exists url. auto.
  - destruct (Hbuild resource) as (url & Hu & Hreq & Hpr). right. exists url. auto.
  - destruct (response self) as [body|] eqn:Hresp.
    + left. rewrite (@parse_response_cached (stub loads) _ _ body Hresp).
      destruct (@json_loads (stub loads) body); auto.
    + destruct (request_str self) as [url|] eqn:Hurl.
      * right. exists url.
        destruct (Hsent url eq_refl) as (Hu & Hreq & Hpr).
        rewrite (@parse_response_fetch (stub loads) _ _ url Hresp Hurl).
        destruct (@send_cases (stub loads) url self w)
          as [(e & w' & Hs)|(body & w' & Hs)]; rewrite Hs in *.
        -- auto.
        -- cbn [response set_response].
           destruct (@json_loads (stub loads) body); auto.
      * left. rewrite (@parse_response_not_built (stub loads)) by assumption. auto.
  - left. auto.
Qed.

(** ** Instances of the further properties *)

Ltac built_once :=
  unfold refused_request, served_request;
  match goal with
  | |- reachable (snd (build_request ?r ?s)) =>
      change (reachable (after (Call_build_request r) s));
      refine (reach_call _ _ _); freshly_built
  end.

Lemma reachable_invariant_witness :
  @reachable (stub inr) served_request
  /\ data_container (fst served_request) = "json"
  /\ (response (fst served_request) <> None -> request_str (fst served_request) <> None)
  /\ http_code (fst served_request) = None.
Proof.
  assert (Hreach : @reachable (stub inr) served_request) by built_once.
  destruct (@reachable_invariant (stub inr) served_request Hreach)
    as (_ & Hjson & Hresp & _ & Hcode).
  split; [exact Hreach|]. split; [exact Hjson|]. split; [exact Hresp | exact Hcode].
Defined.

Lemma methods_keep_configuration_witness :
  is_method (Call_build_request PyNone) = true
  /\ config (fst (@after (stub inr) (Call_build_request PyNone)
                   (example_request, wire [not_found])))
     = config (@example_request (stub inr)).
Proof.
  split; [reflexivity|].
  apply (@methods_keep_configuration (stub inr) (Call_build_request PyNone)
           (example_request, wire [not_found])).
  reflexivity.
Defined.


Lemma query_string_reports_url_witness :
  let s := (@all_sites_request (stub inr), wire [not_found]) in
  reachable s
  /\ request_str (fst s) = None
  /\ query_string s
     = (inr "http://datapoint.metoffice.gov.uk/public/data/{}?{}key={}", s)
  /\ fst (query_string (snd (build_request PyNone s)))
     = inr "http://datapoint.metoffice.gov.uk/public/data/val/wxfcs/all/json/all?key=KEY".
Proof.
  cbv zeta.
  assert (Hreach : @reachable (stub inr) (all_sites_request, wire [not_found]))
    by freshly_built.
  destruct (@query_string_reports_url (stub inr) all_sites_request (wire [not_found]) Hreach)
    as (Hnone & _ & Hbuilt).
  split; [exact Hreach|]. split; [reflexivity|]. split; [exact (Hnone eq_refl)|].
  exact (f_equal fst (Hbuilt PyNone)).
Defined.

Lemma listing_shorthands_resolve_witness :
  reachable (@example_request (stub inr), wire [inr "[]"])
  /\ In ("obs_sites", ("wxobs", "sitelist"))
       [("fcs_sites", ("wxfcs", "sitelist")); ("fcs_capabilities", ("wxfcs", "capabilities"));
        ("obs_sites", ("wxobs", "sitelist")); ("obs_capabilities", ("wxobs", "capabilities"))]
  /\ request_str (fst (snd (@common_requests (stub inr) (PyStr "obs_sites")
                               (example_request, wire [inr "[]"]))))
     = Some "http://datapoint.metoffice.gov.uk/public/data/val/wxobs/all/json/sitelist?res=hourly&key=KEY".
Proof.
  assert (Hreach : @reachable (stub inr) (example_request, wire [inr "[]"]))
    by freshly_built.
  assert (Hin : In ("obs_sites", ("wxobs", "sitelist"))
                  [("fcs_sites", ("wxfcs", "sitelist"));
                   ("fcs_capabilities", ("wxfcs", "capabilities"));
                   ("obs_sites", ("wxobs", "sitelist"));
                   ("obs_capabilities", ("wxobs", "capabilities"))])
    by (right; right; left; reflexivity).
  split; [exact Hreach|]. split; [exact Hin|].
  exact (proj2 (@listing_shorthands_resolve (stub inr) "obs_sites" "wxobs" "sitelist"
                  example_request (wire [inr "[]"]) Hreach Hin)).
Defined.

Lemma fiveday_never_resolves_witness :
  reachable (@example_request (stub inr), wire [inr "[]"])
  /\ site_id (@example_request (stub inr)) = PyInt 3772
  /\ @common_requests (stub inr) (PyStr "obs_fiveday") (example_request, wire [inr "[]"])
     = (inl (AttributeError "'DPRequest' object has no attribute 'locn_id'"),
        (example_request, wire [inr "[]"])).
Proof.
  assert (Hreach : @reachable (stub inr) (example_request, wire [inr "[]"]))
    by freshly_built.
  split; [exact Hreach|]. split; [reflexivity|].
  exact (proj1 (@fiveday_never_resolves (stub inr) (PyStr "obs_fiveday")
                  example_request (wire [inr "[]"]) Hreach) (or_intror eq_refl)).
Defined.

Lemma parse_after_build_does_not_fetch_witness :
  let s := (@example_request (stub inr), wire [inr "{}"]) in
  let s1 := snd (build_request PyNone s) in
  reachable s
  /\ build_request PyNone s = (inr tt, s1)
  /\ exists body,
       response (fst s1) = Some body
       /\ parse_response s1
          = match @json_loads (stub inr) body with
            | inl e => (inl e, s1)
            | inr d => (inr d, (set_data (Some d) (fst s1), snd s1))
            end.
Proof.
  cbv zeta.
  assert (Hreach : @reachable (stub inr) (example_request, wire [inr "{}"]))
    by freshly_built.
  split; [exact Hreach|]. split; [reflexivity|].
  exact (@parse_after_build_does_not_fetch (stub inr) PyNone example_request
           (wire [inr "{}"]) _ Hreach eq_refl).
Defined.

Lemma parse_twice_witness :
  let s1 := snd (@parse_response (stub inr) served_request) in
  @parse_response (stub inr) served_request = (inr "old", s1)
  /\ @parse_response (stub inr) s1 = (inr "old", s1).
Proof.
  cbv zeta. split; [reflexivity|].
  exact (proj1 (@parse_twice (stub inr) served_request _ "old" eq_refl)).
Defined.

Lemma failed_rebuild_leaves_stale_response_witness :
  let s' := snd (@build_request (stub inr) PyNone
                   (setattr A_site_id (PyStr "3840") (fst served_request),
                    snd served_request)) in
  response (fst served_request) = Some "old"
  /\ fst (@build_request (stub inr) PyNone
            (setattr A_site_id (PyStr "3840") (fst served_request), snd served_request))
     = inl (HTTPError 404 "Not Found")
  /\ request_str (fst s')
     = Some "http://datapoint.metoffice.gov.uk/public/data/val/wxobs/all/json/3840?res=hourly&key=KEY"
  /\ fst (@parse_response (stub inr) s') = inr "old".
Proof.
  cbv zeta. split; [reflexivity|]. split; [reflexivity|].
  assert (Hreach : @reachable (stub inr)
                     (setattr A_site_id (PyStr "3840") (fst served_request),
                      snd served_request)).
  { exact (reach_call (Call_setattr A_site_id (PyStr "3840")) served_request
             ltac:(built_once)). }
  destruct (proj2 (@failed_rebuild_leaves_stale_response (stub inr) PyNone _ _ "old"
                     Hreach eq_refl) _ _ eq_refl) as (Hurl & _ & Hparse).
  split; [exact Hurl|]. exact (f_equal fst Hparse).
Defined.

Lemma query_fragment_structure_witness :
  build_query [] "" = inr ""
  /\ build_query [("res", PyInt 3)] "" <> inr "".
Proof.
  destruct (query_fragment_structure [] []) as (Hnil & _).
  destruct (query_fragment_structure [("res", PyInt 3)] []) as (Hres & _).
  split; [exact (proj2 Hnil eq_refl)|].
  intros H. apply (proj1 Hres) in H. discriminate H.
Defined.

Lemma attribute_change_and_url_witness :
  py_str (PyStr "3772") = py_str (getattr A_site_id (@example_request (stub inr)))
  /\ built_url PyNone (setattr A_site_id (PyStr "3772") (@example_request (stub inr)))
     = built_url PyNone (@example_request (stub inr)).
Proof.
  split; [reflexivity|].
  apply (@attribute_change_and_url (stub inr) A_site_id (PyStr "3772") example_request).
  reflexivity.
Defined.

Lemma raised_exceptions_witness :
  let s := (@all_sites_request (stub inr), wire []) in
  reachable s
  /\ raised Call_parse_response s = Some (ValueError "Request string has not been defined.")
  /\ raised (Call_build_request PyNone) s = Some (URLError "no reply")
  /\ ((exists url w0, fst (@urlopen (stub inr) url w0) = inl (URLError "no reply"))
      \/ (exists conn w0, fst (@read (stub inr) conn w0) = inl (URLError "no reply"))
      \/ (exists body, @json_loads (stub inr) body = inl (URLError "no reply"))).
Proof.
  cbv zeta.
  assert (Hreach : @reachable (stub inr) (all_sites_request, wire [])) by freshly_built.
  split; [exact Hreach|]. split; [reflexivity|]. split; [reflexivity|].
  destruct (@raised_exceptions (stub inr) (Call_build_request PyNone)
              (all_sites_request, wire []) (URLError "no reply") Hreach eq_refl)
    as [Hown|Hext]; [|exact Hext].
  simpl in Hown. destruct Hown as [H|[H|[H|[H|[]]]]]; discriminate H.
Defined.

Lemma example_session_witness :
  request_str (fst (snd (@example_main (stub inr) "KEY" (wire [not_found]))))
  = Some "http://datapoint.metoffice.gov.uk/public/data/val/wxobs/all/json/3772?res=hourly&key=KEY"
  /\ fst (@example_main (stub inr) "KEY" (wire [not_found]))
     = inl (HTTPError 404 "Not Found")
  /\ fst (@example_main (stub inr) "KEY" (wire [inr "{}"])) = inr "{}"
  /\ requested (snd (snd (@example_main (stub inr) "KEY" (wire [inr "{}"]))))
     = ["http://datapoint.metoffice.gov.uk/public/data/val/wxobs/all/json/3772?res=hourly&key=KEY"].
Proof.
  destruct (@example_session (stub inr) "KEY" (wire [not_found])) as (Hurl & Hfail & _).
  destruct (@example_session (stub inr) "KEY" (wire [inr "{}"])) as (_ & _ & Hok).
  split; [exact Hurl|].
  split; [exact (f_equal fst (Hfail _ _ eq_refl))|].
  destruct (Hok _ eq_refl) as (body & Hbody & Hdata & Hworld).
  split; [|rewrite Hworld; reflexivity].
  rewrite Hdata. cbn in Hbody. injection Hbody as <-. reflexivity.
Defined.

Lemma pressures_of_report_witness :
  subscript one_reading "SiteRep" <> inl (KeyError "SiteRep")
  /\ retrieve_pressure one_reading = inr [JStr "1023"].
Proof.
  split; [discriminate|].
  refine (proj1 (pressures_of_report one_reading _ _ _
                   [JDict [("Rep", JList [JDict [("P", JStr "1023")]])]]
                   [[JDict [("P", JStr "1023")]]] [[JStr "1023"]]
                   eq_refl eq_refl eq_refl eq_refl _ _));
    repeat constructor.
Defined.

Lemma object_in_place_of_list_witness :
  subscript single_day "SiteRep" <> inl (KeyError "SiteRep")
  /\ retrieve_pressure single_day = inl (TypeError "string indices must be integers").
Proof.
  split; [discriminate|].
  refine (object_in_place_of_list single_day _ _ _ _
            [("type", JStr "Day"); ("Rep", JList [JDict [("P", JStr "1023")]])]
            eq_refl eq_refl eq_refl eq_refl _ (or_introl eq_refl)).
  discriminate.
Defined.

Lemma one_request_per_call_witness :
  let s := (@all_sites_request (stub inr), wire [not_found]) in
  let s' := @after (stub inr) (Call_build_request PyNone) s in
  reachable s
  /\ requested (snd s')
     = ["http://datapoint.metoffice.gov.uk/public/data/val/wxfcs/all/json/all?key=KEY"]
  /\ exists url,
       request_str (fst s') = Some url
       /\ requested (snd s') = (requested (snd s) ++ [url])%list.
Proof.
  cbv zeta.
  assert (Hreach : @reachable (stub inr) (all_sites_request, wire [not_found]))
    by freshly_built.
  split; [exact Hreach|]. split; [reflexivity|].
  destruct (@one_request_per_call inr (Call_build_request PyNone)
              (all_sites_request, wire [not_found]) Hreach)
    as [(Hsame & _)|(url & Hurl & Hreq & _)].
  - vm_compute in Hsame. discriminate Hsame.
  - exists url. split; [exact Hurl | exact Hreq].
Defined.
